(** * Query builder and query client: a shallow embedding

    The development follows two Python modules of the repository,
    [query_builder.py] (class [QueryBuilder]) and [grpc_client.py]
    (class [QueryClient]).

    - Python objects that are mutated in place (the builder, the client,
      the [Query] handed to the client) are threaded explicitly as state.
    - A Python call either returns a value or raises; see [outcome].
      State changes made before an exception is raised are kept, as in
      Python.
    - [print] calls have no effect on any value and are left out. *)

From Stdlib Require Import ZArith List String Ascii Bool Lia.
From Stdlib Require Import Floats.SpecFloat.
Import ListNotations.

Local Open Scope string_scope.
Local Open Scope Z_scope.

(** ** Python values *)

Module Py.

(** Python's [float] is an IEEE-754 double. *)
Definition float := spec_float.

(** [timedelta], kept as a whole number of microseconds. *)
Definition timedelta := Z.

(** [datetime.datetime]: the calendar fields and the UTC offset of its
    [tzinfo] ([None] for a naive datetime). *)
Record datetime : Type := mk_datetime {
  year : N;
  month : N;
  day : N;
  hour : N;
  minute : N;
  second : N;
  microsecond : N;
  utcoffset : option timedelta
}.

(** The values a caller can hand to a filter method ([value: Any]).
    [PyObject] stands for an object of any other class, given by the text
    that [str()] returns for it. *)
Inductive value : Type :=
| PyBool (b : bool)
| PyInt (n : Z)
| PyFloat (f : float)
| PyStr (s : string)
| PyDatetime (d : datetime)
| PyNone
| PyObject (str_ : string).

(** Truth value of an optional string ([None] and [""] are falsy). *)
Definition truthy_str (s : option string) : bool :=
  match s with
  | Some EmptyString => false
  | Some _ => true
  | None => false
  end.

(** Truth value of an optional bool ([None] and [False] are falsy). *)
Definition truthy_bool (b : option bool) : bool :=
  match b with
  | Some true => true
  | _ => false
  end.

(** [x or d] for an optional string [x]. *)
Definition or_str (x : option string) (d : string) : string :=
  match x with
  | Some EmptyString => d
  | Some s => s
  | None => d
  end.

(** [x or []] for an optional list [x]. *)
Definition or_list {A} (x : option (list A)) : list A :=
  match x with
  | Some l => l
  | None => []
  end.

(** [x is not None] *)
Definition is_some {A} (x : option A) : bool :=
  match x with
  | Some _ => true
  | None => false
  end.

(** Decimal digit for the units of [n]. *)
Definition digit (n : N) : ascii :=
  ascii_of_N (48 + n mod 10).

(** The last [w] decimal digits of [n], most significant first. *)
Fixpoint fixed_digits (w : nat) (n : N) (acc : string) : string :=
  match w with
  | O => acc
  | S w' => fixed_digits w' (n / 10) (String (digit n) acc)
  end.

(** All decimal digits of [n], put before the ones already in [acc];
    nothing for zero. A number has no more decimal digits than bits. *)
Fixpoint more_digits (fuel : nat) (n : N) (acc : string) : string :=
  match fuel with
  | O => acc
  | S fuel' =>
      if (n =? 0)%N then acc
      else more_digits fuel' (n / 10) (String (digit n) acc)
  end.

(** ["%0wd" % n] for a natural number [n]: at least [w] digits, padded
    with zeros on the left. *)
Definition zfill (w : nat) (n : N) : string :=
  more_digits (N.size_nat n) (n / 10 ^ N.of_nat w) (fixed_digits w n "").

(** [_format_time(hh, mm, ss, us, 'auto')]. *)
Definition _format_time (hh mm ss us : N) : string :=
  let hms := zfill 2 hh ++ ":" ++ zfill 2 mm ++ ":" ++ zfill 2 ss in
  if (us =? 0)%N then hms else hms ++ "." ++ zfill 6 us.

(** The part [_format_time] puts after the seconds. *)
Definition fraction (us : N) : string :=
  if (us =? 0)%N then "" else "." ++ zfill 6 us.

(** [_format_offset(off)]: ["+HH:MM"], with [":SS"] and [".ffffff"] when
    they are not zero. *)
Definition _format_offset (off : option timedelta) : string :=
  match off with
  | None => ""
  | Some off =>
      let sign := if off <? 0 then "-" else "+" in
      let off := Z.abs off in
      let hh := off / 3600000000 in
      let mm := off mod 3600000000 in
      let ss := mm mod 60000000 in
      let mm := mm / 60000000 in
      let s := sign ++ zfill 2 (Z.to_N hh) ++ ":" ++ zfill 2 (Z.to_N mm) in
      if ss =? 0 then s
      else
        let s := s ++ ":" ++ zfill 2 (Z.to_N (ss / 1000000)) in
        if ss mod 1000000 =? 0 then s
        else s ++ "." ++ zfill 6 (Z.to_N (ss mod 1000000))
  end.

(** [datetime.isoformat()] with its default arguments. *)
Definition isoformat (d : datetime) : string :=
  zfill 4 (year d) ++ "-" ++ zfill 2 (month d) ++ "-" ++ zfill 2 (day d)
  ++ "T"
  ++ _format_time (hour d) (minute d) (second d) (microsecond d)
  ++ _format_offset (utcoffset d).

(** The constructor of [datetime] accepts exactly these field ranges
    (the day is further limited by the month). *)
Definition in_range (d : datetime) : bool :=
  (1 <=? year d)%N && (year d <=? 9999)%N &&
  (1 <=? month d)%N && (month d <=? 12)%N &&
  (1 <=? day d)%N && (day d <=? 31)%N &&
  (hour d <=? 23)%N && (minute d <=? 59)%N && (second d <=? 59)%N &&
  (microsecond d <=? 999999)%N.

(** What a Python call produces: a returned value or a raised exception. *)
Inductive exn : Type :=
| RuntimeError (msg : string)
| AttributeError (msg : string)
| RpcError (code details : string).

Inductive outcome (A : Type) : Type :=
| Returned (a : A)
| Raised (e : exn).
Arguments Returned {A} a.
Arguments Raised {A} e.

End Py.

(** ** ISO-8601 UTC timestamps

    Recogniser for the text form [YYYY-MM-DDTHH:MM:SS[.f+]Z]: a calendar
    date, a time of day with optional decimal fraction, and the UTC
    designator, with nothing after it. *)

Module Iso8601.

Definition is_digit (c : ascii) : bool :=
  let n := nat_of_ascii c in (48 <=? n)%nat && (n <=? 57)%nat.

(** [n] digits, then the rest. *)
Fixpoint take_digits (n : nat) (s : string) : option string :=
  match n, s with
  | O, _ => Some s
  | S n', String c s' => if is_digit c then take_digits n' s' else None
  | S _, EmptyString => None
  end.

(** The character [c], then the rest. *)
Definition take_char (c : ascii) (s : string) : option string :=
  match s with
  | String c' s' => if Ascii.eqb c c' then Some s' else None
  | EmptyString => None
  end.

(** Zero or more digits, then the rest. *)
Fixpoint skip_digits (s : string) : string :=
  match s with
  | String c s' => if is_digit c then skip_digits s' else s
  | EmptyString => s
  end.

(** Every character is a digit. *)
Fixpoint digits_only (s : string) : bool :=
  match s with
  | String c s' => is_digit c && digits_only s'
  | EmptyString => true
  end.

Definition and_then {A B} (x : option A) (f : A -> option B) : option B :=
  match x with
  | Some a => f a
  | None => None
  end.

(** Optional fraction: a dot and at least one digit. *)
Definition take_fraction (s : string) : option string :=
  match s with
  | String "." s' => option_map skip_digits (take_digits 1 s')
  | _ => Some s
  end.

Definition is_utc_timestamp (s : string) : bool :=
  let r :=
    and_then (take_digits 4 s) (fun s =>
    and_then (take_char "-" s) (fun s =>
    and_then (take_digits 2 s) (fun s =>
    and_then (take_char "-" s) (fun s =>
    and_then (take_digits 2 s) (fun s =>
    and_then (take_char "T" s) (fun s =>
    and_then (take_digits 2 s) (fun s =>
    and_then (take_char ":" s) (fun s =>
    and_then (take_digits 2 s) (fun s =>
    and_then (take_char ":" s) (fun s =>
    and_then (take_digits 2 s) (fun s =>
    and_then (take_fraction s) (fun s =>
    take_char "Z" s)))))))))))) in
  match r with
  | Some EmptyString => true
  | _ => false
  end.

End Iso8601.

(** ** Protobuf messages

    The generated modules ([struct_pb2], [filter_pb2], [sort_pb2], ...)
    are imported by the sources but are not part of them. A message is a
    record of its fields. A singular field that the code may leave
    unassigned is an [option] ([None]: never assigned); a repeated field
    is a list. *)

Module struct_pb2.

(** The number given to a [number_value] field: the builder passes
    Python integers and floats alike; the conversion of an integer to a
    double is done by the protobuf runtime and is not modelled. *)
Inductive Number : Type :=
| of_int (n : Z)
| of_float (f : Py.float).

(** [google.protobuf.struct_pb2.Value], with the variants of its [kind]
    that the builder sets. *)
Inductive Value : Type :=
| null_value
| number_value (n : Number)
| string_value (s : string)
| bool_value (b : bool).

End struct_pb2.

Module filter_pb2.

(** Modelled from the spec: the operator enumeration of [filter_pb2],
    whose declaration is missing; the names are the constants the sources
    use and the operators the spec lists (section 4.1). *)
Inductive Operator : Type :=
| OPERATOR_EQ | OPERATOR_NE | OPERATOR_LT | OPERATOR_LTE | OPERATOR_GT
| OPERATOR_GTE | OPERATOR_CONTAINS | OPERATOR_STARTS_WITH
| OPERATOR_ENDS_WITH | OPERATOR_MATCHES | OPERATOR_ARRAY_CONTAINS
| OPERATOR_ARRAY_CONTAINS_ANY | OPERATOR_IN | OPERATOR_NOT_IN
| OPERATOR_IS_NULL | OPERATOR_IS_NOT_NULL.

(** Modelled from the spec: the [Condition] message, whose declaration is
    missing: field path, operator, one operand ([value]) or many
    ([values]), case-sensitivity flag. *)
Record Condition : Type := mk_Condition {
  field : string;
  operator : Operator;
  value : option struct_pb2.Value;
  values : list struct_pb2.Value;
  case_sensitive : option bool
}.

(** Modelled from the spec: the [Filter] message, whose declaration is
    missing: Condition | And(children) | Or(children) | Not(child).
    [and_ fs] is [Filter(and_=AndFilter(conditions=fs))]. *)
#[warnings="-register-all"]
Inductive Filter : Type :=
| condition (c : Condition)
| and_ (conditions : list Filter)
| or_ (conditions : list Filter)
| not_ (f : Filter).

End filter_pb2.

Module sort_pb2.

(** Modelled from the spec: the enumerations of [sort_pb2], whose
    declarations are missing; the names are the constants the sources
    use. No null ordering assigned is the default one. *)
Inductive SortDirection : Type :=
| SORT_DIRECTION_ASC | SORT_DIRECTION_DESC.

Inductive NullOrdering : Type :=
| NULL_ORDERING_NULLS_FIRST | NULL_ORDERING_NULLS_LAST.

(** Modelled from the spec: the [Sort] message, whose declaration is
    missing: field, direction, null ordering ([None]: the default). *)
Record Sort : Type := mk_Sort {
  field : string;
  direction : SortDirection;
  nulls : option NullOrdering
}.

End sort_pb2.

Module pagination_pb2.

(** Modelled from the spec: the [Pagination] message, whose declaration is
    missing: page size, cursor, offset. *)
Record Pagination : Type := mk_Pagination {
  page_size : option Z;
  cursor : option string;
  offset : option Z
}.

(** [Pagination()] *)
Definition new_Pagination : Pagination := mk_Pagination None None None.

Definition set_page_size (p : Pagination) (v : Z) : Pagination :=
  mk_Pagination (Some v) (cursor p) (offset p).
Definition set_cursor (p : Pagination) (v : string) : Pagination :=
  mk_Pagination (page_size p) (Some v) (offset p).
Definition set_offset (p : Pagination) (v : Z) : Pagination :=
  mk_Pagination (page_size p) (cursor p) (Some v).

End pagination_pb2.

Module aggregation_pb2.

(** Modelled from the spec: the aggregate functions of
    [aggregation_pb2], whose declaration is missing (section 3). *)
Inductive AggregateFunction : Type :=
| AGGREGATE_FUNCTION_COUNT | AGGREGATE_FUNCTION_SUM
| AGGREGATE_FUNCTION_AVG | AGGREGATE_FUNCTION_MIN
| AGGREGATE_FUNCTION_MAX | AGGREGATE_FUNCTION_COUNT_DISTINCT
| AGGREGATE_FUNCTION_STDDEV | AGGREGATE_FUNCTION_VARIANCE
| AGGREGATE_FUNCTION_PERCENTILE.

(** Modelled from the spec: the [Aggregate] message, whose declaration is
    missing: function, field, percentile, alias. *)
Record Aggregate : Type := mk_Aggregate {
  function : AggregateFunction;
  field : option string;
  percentile : option Py.float;
  alias : string
}.

(** Modelled from the spec: the [Aggregation] message, whose declaration
    is missing: group-by fields, aggregates, optional HAVING filter. *)
Record Aggregation : Type := mk_Aggregation {
  group_by : list string;
  aggregates : list Aggregate;
  having : option filter_pb2.Filter
}.

(** [Aggregation()] *)
Definition new_Aggregation : Aggregation := mk_Aggregation [] [] None.

End aggregation_pb2.

Module search_pb2.

(** Modelled from the spec: the search types of [search_pb2], whose
    declaration is missing. *)
Inductive SearchType : Type :=
| SEARCH_TYPE_FULL_TEXT | SEARCH_TYPE_SEMANTIC | SEARCH_TYPE_HYBRID.

(** Modelled from the spec: the [Search] message, whose declaration is
    missing. *)
Record Search : Type := mk_Search {
  query : string;
  type : SearchType;
  fields : list string;
  vector_field : option string;
  embedding : list Py.float;
  min_score : Py.float;
  boost : list (string * Py.float)
}.

End search_pb2.

Module relation_pb2.

(** Modelled from the spec: the join types of [relation_pb2], whose
    declaration is missing. *)
Inductive JoinType : Type :=
| JOIN_TYPE_INNER | JOIN_TYPE_LEFT_OUTER.

(** Modelled from the spec: the [Relation] message, whose declaration is
    missing. *)
Record Relation : Type := mk_Relation {
  entity : string;
  alias : string;
  type : JoinType;
  on : filter_pb2.Filter;
  eager : bool
}.

End relation_pb2.

Module query_pb2.

(** Modelled from the spec: the [Projection] message, whose declaration is
    missing. *)
Record Projection : Type := mk_Projection {
  include : list string;
  exclude : list string
}.

(** Modelled from the spec: the consistency levels of [query_pb2],
    whose declaration is missing. *)
Inductive ConsistencyLevel : Type :=
| CONSISTENCY_LEVEL_EVENTUAL | CONSISTENCY_LEVEL_STRONG
| CONSISTENCY_LEVEL_LINEARIZABLE.

(** Modelled from the spec: the [QueryOptions] message, whose declaration
    is missing. *)
Record QueryOptions : Type := mk_QueryOptions {
  timeout_ms : option Z;
  count_total : option bool;
  consistency : option ConsistencyLevel;
  explain : option bool
}.

(** [QueryOptions()] *)
Definition no_options : QueryOptions := mk_QueryOptions None None None None.

Definition set_timeout_ms (o : QueryOptions) (v : Z) : QueryOptions :=
  mk_QueryOptions (Some v) (count_total o) (consistency o) (explain o).
Definition set_count_total (o : QueryOptions) (v : bool) : QueryOptions :=
  mk_QueryOptions (timeout_ms o) (Some v) (consistency o) (explain o).
Definition set_consistency (o : QueryOptions) (v : ConsistencyLevel)
  : QueryOptions :=
  mk_QueryOptions (timeout_ms o) (count_total o) (Some v) (explain o).
Definition set_explain (o : QueryOptions) (v : bool) : QueryOptions :=
  mk_QueryOptions (timeout_ms o) (count_total o) (consistency o) (Some v).

(** Modelled from the spec: the [Query] message, whose declaration is
    missing: the entity name and the optional parts of a query. *)
Record Query : Type := mk_Query {
  entity : string;
  filter : option filter_pb2.Filter;
  sort : list sort_pb2.Sort;
  projection : option Projection;
  pagination : option pagination_pb2.Pagination;
  aggregation : option aggregation_pb2.Aggregation;
  search : option search_pb2.Search;
  relation : list relation_pb2.Relation;
  options : option QueryOptions
}.

(** [Query(entity=e)] *)
Definition new_Query (e : string) : Query :=
  mk_Query e None [] None None None None [] None.

Definition set_filter (q : Query) (v : option filter_pb2.Filter) : Query :=
  mk_Query (entity q) v (sort q) (projection q) (pagination q)
           (aggregation q) (search q) (relation q) (options q).
Definition set_sort (q : Query) (v : list sort_pb2.Sort) : Query :=
  mk_Query (entity q) (filter q) v (projection q) (pagination q)
           (aggregation q) (search q) (relation q) (options q).
Definition set_projection (q : Query) (v : option Projection) : Query :=
  mk_Query (entity q) (filter q) (sort q) v (pagination q)
           (aggregation q) (search q) (relation q) (options q).
Definition set_pagination (q : Query)
  (v : option pagination_pb2.Pagination) : Query :=
  mk_Query (entity q) (filter q) (sort q) (projection q) v
           (aggregation q) (search q) (relation q) (options q).
Definition set_aggregation (q : Query)
  (v : option aggregation_pb2.Aggregation) : Query :=
  mk_Query (entity q) (filter q) (sort q) (projection q) (pagination q)
           v (search q) (relation q) (options q).
Definition set_search (q : Query) (v : option search_pb2.Search) : Query :=
  mk_Query (entity q) (filter q) (sort q) (projection q) (pagination q)
           (aggregation q) v (relation q) (options q).
Definition set_relation (q : Query) (v : list relation_pb2.Relation)
  : Query :=
  mk_Query (entity q) (filter q) (sort q) (projection q) (pagination q)
           (aggregation q) (search q) v (options q).
Definition set_options (q : Query) (v : option QueryOptions) : Query :=
  mk_Query (entity q) (filter q) (sort q) (projection q) (pagination q)
           (aggregation q) (search q) (relation q) v.

End query_pb2.

(** ** [query_builder.py]: class [QueryBuilder]

    The builder object is a record of its attributes. Every fluent method
    mutates [self] and returns it: here it maps the builder before the
    call to the builder after it. An attribute holding a message is
    tested with [if not self._x]: a protobuf message is always truthy, so
    the test is true exactly when the attribute is still [None]. *)

Module QueryBuilder.

Import struct_pb2 filter_pb2.

Record builder : Type := mk_builder {
  _entity : string;
  _filters : list filter_pb2.Filter;
  _sorts : list sort_pb2.Sort;
  _projection : option query_pb2.Projection;
  _pagination : option pagination_pb2.Pagination;
  _aggregation : option aggregation_pb2.Aggregation;
  _search : option search_pb2.Search;
  _relations : list relation_pb2.Relation;
  _options : option query_pb2.QueryOptions
}.

(** [QueryBuilder(entity)] *)
Definition __init__ (entity : string) : builder :=
  mk_builder entity [] [] None None None None [] None.

(** Assignments to one attribute of [self]. *)
Definition assign_filters (self : builder) v : builder :=
  mk_builder (_entity self) v (_sorts self) (_projection self) (_pagination self)
     (_aggregation self) (_search self) (_relations self) (_options self).
Definition assign_sorts (self : builder) v : builder :=
  mk_builder (_entity self) (_filters self) v (_projection self) (_pagination self)
     (_aggregation self) (_search self) (_relations self) (_options self).
Definition assign_projection (self : builder) v : builder :=
  mk_builder (_entity self) (_filters self) (_sorts self) v (_pagination self)
     (_aggregation self) (_search self) (_relations self) (_options self).
Definition assign_pagination (self : builder) v : builder :=
  mk_builder (_entity self) (_filters self) (_sorts self) (_projection self) v
     (_aggregation self) (_search self) (_relations self) (_options self).
Definition assign_aggregation (self : builder) v : builder :=
  mk_builder (_entity self) (_filters self) (_sorts self) (_projection self)
     (_pagination self) v (_search self) (_relations self) (_options self).
Definition assign_search (self : builder) v : builder :=
  mk_builder (_entity self) (_filters self) (_sorts self) (_projection self)
     (_pagination self) (_aggregation self) v (_relations self)
     (_options self).
Definition assign_options (self : builder) v : builder :=
  mk_builder (_entity self) (_filters self) (_sorts self) (_projection self)
     (_pagination self) (_aggregation self) (_search self)
     (_relations self) v.

(** [if not self._x: self._x = new], then the message in [self._x]. *)
Definition get_or_create {A} (x : option A) (new : A) : A :=
  match x with
  | Some m => m
  | None => new
  end.

(** *** Helper methods *)

(** [_to_proto_value]: the [isinstance] chain, in the order of the
    source. [bool] is tested before [int]. *)
Definition _to_proto_value (value : Py.value) : Value :=
  match value with
  | Py.PyBool b => bool_value b
  | Py.PyInt n => number_value (of_int n)
  | Py.PyFloat f => number_value (of_float f)
  | Py.PyStr s => string_value s
  | Py.PyDatetime d => string_value (Py.isoformat d ++ "Z")
  | Py.PyNone => null_value
  | Py.PyObject str_ => string_value str_
  end.

Definition _add_condition (self : builder) (field : string) (operator : Operator)
  (value : Py.value) : builder :=
  assign_filters self
    (_filters self ++
     [condition (mk_Condition field operator
                   (Some (_to_proto_value value)) [] None)]).

Definition _add_sort (self : builder) (field : string)
  (direction : sort_pb2.SortDirection) (nulls : string) : builder :=
  let sort := sort_pb2.mk_Sort field direction None in
  let sort :=
    if String.eqb nulls "first" then
      sort_pb2.mk_Sort field direction
        (Some sort_pb2.NULL_ORDERING_NULLS_FIRST)
    else if String.eqb nulls "last" then
      sort_pb2.mk_Sort field direction
        (Some sort_pb2.NULL_ORDERING_NULLS_LAST)
    else sort in
  assign_sorts self (_sorts self ++ [sort]).

Definition _add_aggregate (self : builder)
  (function : aggregation_pb2.AggregateFunction)
  (field : option string) (alias : option string) : builder :=
  let aggregation := get_or_create (_aggregation self) aggregation_pb2.new_Aggregation in
  let agg :=
    aggregation_pb2.mk_Aggregate function None None
      (Py.or_str alias "result") in
  let agg :=
    if Py.truthy_str field then
      aggregation_pb2.mk_Aggregate function field None
        (aggregation_pb2.alias agg)
    else agg in
  assign_aggregation self
    (Some (aggregation_pb2.mk_Aggregation
             (aggregation_pb2.group_by aggregation)
             (aggregation_pb2.aggregates aggregation ++ [agg])
             (aggregation_pb2.having aggregation))).

(** *** Filter methods *)

Definition filter_eq self field value :=
  _add_condition self field OPERATOR_EQ value.
Definition filter_ne self field value :=
  _add_condition self field OPERATOR_NE value.
Definition filter_lt self field value :=
  _add_condition self field OPERATOR_LT value.
Definition filter_lte self field value :=
  _add_condition self field OPERATOR_LTE value.
Definition filter_gt self field value :=
  _add_condition self field OPERATOR_GT value.
Definition filter_gte self field value :=
  _add_condition self field OPERATOR_GTE value.

Definition filter_in (self : builder) (field : string) (values : list Py.value)
  : builder :=
  let proto_values := map _to_proto_value values in
  assign_filters self
    (_filters self ++
     [condition (mk_Condition field OPERATOR_IN None proto_values None)]).

Definition filter_not_in (self : builder) (field : string)
  (values : list Py.value) : builder :=
  let proto_values := map _to_proto_value values in
  assign_filters self
    (_filters self ++
     [condition (mk_Condition field OPERATOR_NOT_IN None proto_values None)]).

Definition filter_contains (self : builder) (field value : string)
  (case_sensitive : bool) : builder :=
  assign_filters self
    (_filters self ++
     [condition (mk_Condition field OPERATOR_CONTAINS
                   (Some (string_value value)) [] (Some case_sensitive))]).

Definition filter_starts_with self field (value : string) :=
  _add_condition self field OPERATOR_STARTS_WITH (Py.PyStr value).
Definition filter_ends_with self field (value : string) :=
  _add_condition self field OPERATOR_ENDS_WITH (Py.PyStr value).
Definition filter_matches self field (pattern : string) :=
  _add_condition self field OPERATOR_MATCHES (Py.PyStr pattern).

Definition filter_is_null (self : builder) (field : string) : builder :=
  assign_filters self
    (_filters self ++
     [condition (mk_Condition field OPERATOR_IS_NULL None [] None)]).

Definition filter_is_not_null (self : builder) (field : string) : builder :=
  assign_filters self
    (_filters self ++
     [condition (mk_Condition field OPERATOR_IS_NOT_NULL None [] None)]).

Definition filter_array_contains self field value :=
  _add_condition self field OPERATOR_ARRAY_CONTAINS value.

(** *** Sorting methods *)

Definition sort_asc self field (nulls : string) :=
  _add_sort self field sort_pb2.SORT_DIRECTION_ASC nulls.
Definition sort_desc self field (nulls : string) :=
  _add_sort self field sort_pb2.SORT_DIRECTION_DESC nulls.

(** *** Projection methods *)

Definition include (self : builder) (fields : list string) : builder :=
  assign_projection self (Some (query_pb2.mk_Projection fields [])).
Definition exclude (self : builder) (fields : list string) : builder :=
  assign_projection self (Some (query_pb2.mk_Projection [] fields)).

(** *** Pagination methods *)

Definition limit (self : builder) (page_size : Z) : builder :=
  let p := get_or_create (_pagination self) pagination_pb2.new_Pagination in
  assign_pagination self (Some (pagination_pb2.set_page_size p page_size)).

Definition cursor (self : builder) (cursor : string) : builder :=
  let p := get_or_create (_pagination self) pagination_pb2.new_Pagination in
  assign_pagination self (Some (pagination_pb2.set_cursor p cursor)).

Definition offset (self : builder) (offset : Z) : builder :=
  let p := get_or_create (_pagination self) pagination_pb2.new_Pagination in
  assign_pagination self (Some (pagination_pb2.set_offset p offset)).

(** *** Search methods *)

Definition search_fulltext (self : builder) (query : string)
  (fields : option (list string)) (min_score : Py.float) : builder :=
  assign_search self
    (Some (search_pb2.mk_Search query search_pb2.SEARCH_TYPE_FULL_TEXT
             (Py.or_list fields) None [] min_score [])).

Definition search_semantic (self : builder) (query : option string)
  (embedding : option (list Py.float)) (vector_field : string)
  (min_score : Py.float) : builder :=
  assign_search self
    (Some (search_pb2.mk_Search (Py.or_str query "")
             search_pb2.SEARCH_TYPE_SEMANTIC [] (Some vector_field)
             (Py.or_list embedding) min_score [])).

(** *** Aggregation methods *)

Definition group_by (self : builder) (fields : list string) : builder :=
  let aggregation := get_or_create (_aggregation self) aggregation_pb2.new_Aggregation in
  assign_aggregation self
    (Some (aggregation_pb2.mk_Aggregation
             (aggregation_pb2.group_by aggregation ++ fields)
             (aggregation_pb2.aggregates aggregation)
             (aggregation_pb2.having aggregation))).

Definition count (self : builder) (alias : string) : builder :=
  _add_aggregate self aggregation_pb2.AGGREGATE_FUNCTION_COUNT None
    (Some alias).

Definition sum (self : builder) (field : string) (alias : option string) : builder :=
  _add_aggregate self aggregation_pb2.AGGREGATE_FUNCTION_SUM (Some field)
    (Some (Py.or_str alias ("sum_" ++ field))).

Definition avg (self : builder) (field : string) (alias : option string) : builder :=
  _add_aggregate self aggregation_pb2.AGGREGATE_FUNCTION_AVG (Some field)
    (Some (Py.or_str alias ("avg_" ++ field))).

Definition min (self : builder) (field : string) (alias : option string) : builder :=
  _add_aggregate self aggregation_pb2.AGGREGATE_FUNCTION_MIN (Some field)
    (Some (Py.or_str alias ("min_" ++ field))).

Definition max (self : builder) (field : string) (alias : option string) : builder :=
  _add_aggregate self aggregation_pb2.AGGREGATE_FUNCTION_MAX (Some field)
    (Some (Py.or_str alias ("max_" ++ field))).

(** *** Options methods *)

Definition timeout (self : builder) (timeout_ms : Z) : builder :=
  let o := get_or_create (_options self) query_pb2.no_options in
  assign_options self (Some (query_pb2.set_timeout_ms o timeout_ms)).

Definition explain (self : builder) (enabled : bool) : builder :=
  let o := get_or_create (_options self) query_pb2.no_options in
  assign_options self (Some (query_pb2.set_explain o enabled)).

Definition count_total (self : builder) (enabled : bool) : builder :=
  let o := get_or_create (_options self) query_pb2.no_options in
  assign_options self (Some (query_pb2.set_count_total o enabled)).

(** [level_map.get(level, CONSISTENCY_LEVEL_STRONG)] *)
Definition level_map_get (level : string) : query_pb2.ConsistencyLevel :=
  if String.eqb level "eventual" then query_pb2.CONSISTENCY_LEVEL_EVENTUAL
  else if String.eqb level "strong" then query_pb2.CONSISTENCY_LEVEL_STRONG
  else if String.eqb level "linearizable"
       then query_pb2.CONSISTENCY_LEVEL_LINEARIZABLE
  else query_pb2.CONSISTENCY_LEVEL_STRONG.

Definition consistency (self : builder) (level : string) : builder :=
  let o := get_or_create (_options self) query_pb2.no_options in
  assign_options self (Some (query_pb2.set_consistency o (level_map_get level))).

(** *** Build method

    [build] reads [self] and fills a fresh [Query]; [CopyFrom] and
    [extend] copy their argument into the query. The result pairs what
    the call produces with the builder after the call. *)
Definition build (self : builder) : Py.outcome query_pb2.Query * builder :=
  let query := query_pb2.new_Query (_entity self) in
  (* Combine filters with AND *)
  let query :=
    match _filters self with
    | [] => query
    | [f] => query_pb2.set_filter query (Some f)
    | _ => query_pb2.set_filter query (Some (and_ (_filters self)))
    end in
  (* Add sorts *)
  let query :=
    match _sorts self with
    | [] => query
    | _ => query_pb2.set_sort query (query_pb2.sort query ++ _sorts self)
    end in
  (* Add projection *)
  let query :=
    match _projection self with
    | Some p => query_pb2.set_projection query (Some p)
    | None => query
    end in
  (* Add pagination *)
  let query :=
    match _pagination self with
    | Some p => query_pb2.set_pagination query (Some p)
    | None =>
        match _aggregation self with
        | None =>
            query_pb2.set_pagination query
              (Some (pagination_pb2.mk_Pagination (Some 50) None None))
        | Some _ => query
        end
    end in
  (* Add aggregation *)
  let query :=
    match _aggregation self with
    | Some a => query_pb2.set_aggregation query (Some a)
    | None => query
    end in
  (* Add search *)
  let query :=
    match _search self with
    | Some s => query_pb2.set_search query (Some s)
    | None => query
    end in
  (* Add relations *)
  let query :=
    match _relations self with
    | [] => query
    | _ =>
        query_pb2.set_relation query
          (query_pb2.relation query ++ _relations self)
    end in
  (* Add options *)
  let query :=
    match _options self with
    | Some o => query_pb2.set_options query (Some o)
    | None => query
    end in
  (Py.Returned query, self).

(** *** Call sequences

    One constructor per public fluent method, with the arguments of the
    call (a defaulted argument is given by the caller here). *)
Inductive call : Type :=
| Filter_eq (field : string) (value : Py.value)
| Filter_ne (field : string) (value : Py.value)
| Filter_lt (field : string) (value : Py.value)
| Filter_lte (field : string) (value : Py.value)
| Filter_gt (field : string) (value : Py.value)
| Filter_gte (field : string) (value : Py.value)
| Filter_in (field : string) (values : list Py.value)
| Filter_not_in (field : string) (values : list Py.value)
| Filter_contains (field value : string) (case_sensitive : bool)
| Filter_starts_with (field value : string)
| Filter_ends_with (field value : string)
| Filter_matches (field pattern : string)
| Filter_is_null (field : string)
| Filter_is_not_null (field : string)
| Filter_array_contains (field : string) (value : Py.value)
| Sort_asc (field nulls : string)
| Sort_desc (field nulls : string)
| Include (fields : list string)
| Exclude (fields : list string)
| Limit (page_size : Z)
| Cursor (cursor : string)
| Offset (offset : Z)
| Search_fulltext (query : string) (fields : option (list string))
    (min_score : Py.float)
| Search_semantic (query : option string)
    (embedding : option (list Py.float)) (vector_field : string)
    (min_score : Py.float)
| Group_by (fields : list string)
| Count (alias : string)
| Sum (field : string) (alias : option string)
| Avg (field : string) (alias : option string)
| Min (field : string) (alias : option string)
| Max (field : string) (alias : option string)
| Timeout (timeout_ms : Z)
| Explain (enabled : bool)
| Count_total (enabled : bool)
| Consistency (level : string).

Definition invoke (self : builder) (c : call) : builder :=
  match c with
  | Filter_eq f v => filter_eq self f v
  | Filter_ne f v => filter_ne self f v
  | Filter_lt f v => filter_lt self f v
  | Filter_lte f v => filter_lte self f v
  | Filter_gt f v => filter_gt self f v
  | Filter_gte f v => filter_gte self f v
  | Filter_in f vs => filter_in self f vs
  | Filter_not_in f vs => filter_not_in self f vs
  | Filter_contains f v cs => filter_contains self f v cs
  | Filter_starts_with f v => filter_starts_with self f v
  | Filter_ends_with f v => filter_ends_with self f v
  | Filter_matches f p => filter_matches self f p
  | Filter_is_null f => filter_is_null self f
  | Filter_is_not_null f => filter_is_not_null self f
  | Filter_array_contains f v => filter_array_contains self f v
  | Sort_asc f n => sort_asc self f n
  | Sort_desc f n => sort_desc self f n
  | Include fs => include self fs
  | Exclude fs => exclude self fs
  | Limit n => limit self n
  | Cursor c => cursor self c
  | Offset n => offset self n
  | Search_fulltext q fs ms => search_fulltext self q fs ms
  | Search_semantic q e vf ms => search_semantic self q e vf ms
  | Group_by fs => group_by self fs
  | Count a => count self a
  | Sum f a => sum self f a
  | Avg f a => avg self f a
  | Min f a => min self f a
  | Max f a => max self f a
  | Timeout ms => timeout self ms
  | Explain e => explain self e
  | Count_total e => count_total self e
  | Consistency l => consistency self l
  end.

(** [QueryBuilder(entity).m1(..).m2(..)...]: the builder after the calls,
    made in list order. *)
Definition chain (entity : string) (calls : list call) : builder :=
  fold_left invoke calls (__init__ entity).

End QueryBuilder.

(** ** [grpc_client.py]: class [QueryClient]

    A method receives the client object and the [Query] object by
    reference; both are returned with the outcome, so that what a method
    did to them can be stated. *)

Module QueryClient.

Import Py.

(** [grpc.Channel]: the address it was opened on and whether [close()]
    was called on it. *)
Record Channel : Type := mk_Channel {
  target : string;
  closed : bool
}.

Definition insecure_channel (target : string) : Channel :=
  mk_Channel target false.

(** The service stub; [services_pb2_grpc] is not available and the
    assignment that would create one is commented out in [connect]. *)
Inductive Stub : Type :=
| QueryServiceStub (channel : Channel).

Record client : Type := mk_client {
  host : string;
  tenant_id : string;
  timeout : Z;
  _channel : option Channel;
  _stub : option Stub
}.

(** A JSON-like dict with text values: a result row, an explain block. *)
Definition dict := list (string * string).

(** The [pagination] entry of a response dict; a key that is missing is
    [None] (what [dict.get] returns for it). *)
Record PaginationDict : Type := mk_PaginationDict {
  totalCount : option Z;
  pageSize : option Z;
  hasMore : option bool;
  nextCursor : option string
}.

(** A response dict. *)
Record Response : Type := mk_Response {
  results : list dict;
  pagination : option PaginationDict;
  explain : option dict
}.

(** What [MessageToDict] can be given: a protobuf message (with the dict
    it renders to) or a plain Python dict. *)
Inductive pyobject : Type :=
| Message (rendered : Response)
| Dict (d : Response).

(** [json_format.MessageToDict]: it starts by reading
    [message.DESCRIPTOR], an attribute a dict does not have. *)
Definition MessageToDict (message : pyobject) : outcome Response :=
  match message with
  | Message rendered => Returned rendered
  | Dict _ =>
      Raised (AttributeError "'dict' object has no attribute 'DESCRIPTOR'")
  end.

Definition __init__ (host tenant_id : string) (timeout : Z) : client :=
  mk_client host tenant_id timeout None None.

Definition connect (self : client) : client :=
  mk_client (host self) (tenant_id self) (timeout self)
     (Some (insecure_channel (host self)))
     (_stub self).

Definition close (self : client) : client :=
  match _channel self with
  | Some ch =>
      mk_client (host self) (tenant_id self) (timeout self)
         (Some (mk_Channel (target ch) true)) (_stub self)
  | None => self
  end.

(** [query.pagination.page_size], read with the proto3 default. *)
Definition read_page_size (query : query_pb2.Query) : Z :=
  match query_pb2.pagination query with
  | Some p =>
      match pagination_pb2.page_size p with
      | Some n => n
      | None => 0
      end
  | None => 0
  end.

(** [query.pagination.offset], read with the proto3 default. *)
Definition read_offset (query : query_pb2.Query) : Z :=
  match query_pb2.pagination query with
  | Some p =>
      match pagination_pb2.offset p with
      | Some n => n
      | None => 0
      end
  | None => 0
  end.

(** [query.options.explain], read with the proto3 default. *)
Definition read_explain (query : query_pb2.Query) : bool :=
  match query_pb2.options query with
  | Some o =>
      match query_pb2.explain o with
      | Some b => b
      | None => false
      end
  | None => false
  end.

(** [query.pagination.cursor = cursor] *)
Definition assign_cursor (query : query_pb2.Query) (cursor : string)
  : query_pb2.Query :=
  let p :=
    match query_pb2.pagination query with
    | Some p => p
    | None => pagination_pb2.new_Pagination
    end in
  query_pb2.set_pagination query (Some (pagination_pb2.set_cursor p cursor)).

(** [query.options.explain = True] *)
Definition assign_explain (query : query_pb2.Query) : query_pb2.Query :=
  let o :=
    match query_pb2.options query with
    | Some o => o
    | None => query_pb2.no_options
    end in
  query_pb2.set_options query (Some (query_pb2.set_explain o true)).

Definition _mock_response (self : client) (query : query_pb2.Query)
  : pyobject :=
  Dict (mk_Response
          [[("id", "1"); ("name", "Item 1")];
           [("id", "2"); ("name", "Item 2")]]
          (Some (mk_PaginationDict
                   (Some 100)
                   (Some (if read_page_size query =? 0 then 50
                          else read_page_size query))
                   (Some true)
                   (Some "next_page_cursor_abc123")))
          None).

(** [execute_query]. The request metadata is built and never used (the
    call that would send it is commented out). The [except] clause
    handles [grpc.RpcError] only, and re-raises it. *)
Definition execute_query (self : client) (query : query_pb2.Query)
  : outcome Response * (client * query_pb2.Query) :=
  match _stub self with
  | None =>
      (Raised (RuntimeError "Not connected. Call connect() first."),
       (self, query))
  | Some _ =>
      let response := _mock_response self query in
      match MessageToDict response with
      | Returned d => (Returned d, (self, query))
      | Raised (RpcError code details) =>
          (Raised (RpcError code details), (self, query))
      | Raised e => (Raised e, (self, query))
      end
  end.

(** Two query objects that differ at most in [pagination.cursor]. *)
Definition same_but_cursor (q q' : query_pb2.Query) : Prop :=
  query_pb2.entity q' = query_pb2.entity q
  /\ query_pb2.filter q' = query_pb2.filter q
  /\ query_pb2.sort q' = query_pb2.sort q
  /\ query_pb2.projection q' = query_pb2.projection q
  /\ query_pb2.aggregation q' = query_pb2.aggregation q
  /\ query_pb2.search q' = query_pb2.search q
  /\ query_pb2.relation q' = query_pb2.relation q
  /\ query_pb2.options q' = query_pb2.options q
  /\ read_page_size q' = read_page_size q
  /\ read_offset q' = read_offset q.

(** [execute_paginated] and [explain_query] reach the service through
    [self.execute_query] only. They are written over that method, so that
    they can be run on this class and on any other implementation of it
    (a subclass, a test double replaying a sequence of responses). *)
Section Methods.

Context {C : Type}.
Variable execute_query_ :
  C -> query_pb2.Query -> outcome Response * (C * query_pb2.Query).

(** A generator run to its end: the values it yielded, how it ended
    ([Returned tt]: it was exhausted; [Raised e]: it raised [e]), and the
    objects it worked on. *)
Record run : Type := mk_run {
  pages : list Response;
  ending : outcome unit;
  final : C * query_pb2.Query
}.

Definition yield (response : Response) (r : run) : run :=
  mk_run (response :: pages r) (ending r) (final r).

(** [response.get('pagination', {})] *)
Definition get_pagination (response : Response) : PaginationDict :=
  match pagination response with
  | Some p => p
  | None => mk_PaginationDict None None None None
  end.

(** The [while page < max_pages] loop, entered with the current values of
    [page] and [cursor]. [fuel] bounds the number of iterations; [None]
    means it was too small. *)
Fixpoint paginate (fuel : nat) (max_pages page : Z) (cursor : option string)
  (self : C) (query : query_pb2.Query) : option run :=
  match fuel with
  | O => None
  | S fuel' =>
      if page <? max_pages then
        (* Set cursor for subsequent pages *)
        let query :=
          match cursor with
          | Some c =>
              if truthy_str cursor then assign_cursor query c else query
          | None => query
          end in
        match execute_query_ self query with
        | (Raised e, (self, query)) =>
            Some (mk_run [] (Raised e) (self, query))
        | (Returned response, (self, query)) =>
            (* Check if more pages *)
            let pagination := get_pagination response in
            let cursor := nextCursor pagination in
            if negb (truthy_str cursor)
               || negb (truthy_bool (hasMore pagination))
            then Some (yield response (mk_run [] (Returned tt) (self, query)))
            else
              option_map (yield response)
                (paginate fuel' max_pages (page + 1) cursor self query)
        end
      else Some (mk_run [] (Returned tt) (self, query))
  end.

(** [execute_paginated(query, max_pages)], consumed to its end. *)
Definition execute_paginated_ (self : C) (query : query_pb2.Query)
  (max_pages : Z) : option run :=
  paginate (S (Z.to_nat max_pages)) max_pages 0 None self query.

Definition explain_query_ (self : C) (query : query_pb2.Query)
  : outcome dict * (C * query_pb2.Query) :=
  (* Enable explain mode *)
  let query :=
    if negb (read_explain query) then assign_explain query else query in
  match execute_query_ self query with
  | (Raised e, st) => (Raised e, st)
  | (Returned response, st) =>
      match explain response with
      | Some e => (Returned e, st)
      | None => (Returned [], st)
      end
  end.

End Methods.

(** The methods of [QueryClient] itself. *)
Definition execute_paginated := execute_paginated_ execute_query.
Definition explain_query := explain_query_ execute_query.

(** The public calls that change a client object. *)
Inductive client_call : Type :=
| Connect
| Close.

Definition client_invoke (self : client) (c : client_call) : client :=
  match c with
  | Connect => connect self
  | Close => close self
  end.

(** A client after construction and any sequence of such calls. *)
Definition after (host tenant_id : string) (timeout : Z)
  (calls : list client_call) : client :=
  fold_left client_invoke calls (__init__ host tenant_id timeout).

(** A test double for [execute_query]: it replays a list of outcomes, one
    per request, and reports the service unavailable once the list is
    used up. It leaves the query alone. *)
Definition replay (script : list (outcome Response))
  (query : query_pb2.Query)
  : outcome Response * (list (outcome Response) * query_pb2.Query) :=
  match script with
  | r :: rest => (r, (rest, query))
  | [] => (Raised (RpcError "UNAVAILABLE" ""), ([], query))
  end.

End QueryClient.

(** ** What a call sequence asks for

    The quantities the statements below are phrased with: they are read
    off the list of calls. *)

Module Calls.

Import QueryBuilder.

(** The filters one call accumulates: those a fresh builder holds after
    that call alone. *)
Definition filters_of (c : call) : list filter_pb2.Filter :=
  _filters (invoke (__init__ "") c).

(** The filters a call sequence accumulates, in call order. *)
Definition accumulated (calls : list call) : list filter_pb2.Filter :=
  flat_map filters_of calls.

Definition is_filter (c : call) : bool :=
  match c with
  | Filter_eq _ _ | Filter_ne _ _ | Filter_lt _ _ | Filter_lte _ _
  | Filter_gt _ _ | Filter_gte _ _ | Filter_in _ _ | Filter_not_in _ _
  | Filter_contains _ _ _ | Filter_starts_with _ _ | Filter_ends_with _ _
  | Filter_matches _ _ | Filter_is_null _ | Filter_is_not_null _
  | Filter_array_contains _ _ => true
  | _ => false
  end.

(** The caller sets page size, cursor or offset. *)
Definition is_pagination (c : call) : bool :=
  match c with
  | Limit _ | Cursor _ | Offset _ => true
  | _ => false
  end.

(** The caller configures an aggregation. *)
Definition is_aggregation (c : call) : bool :=
  match c with
  | Group_by _ | Count _ | Sum _ _ | Avg _ _ | Min _ _ | Max _ _ => true
  | _ => false
  end.

Definition is_projection (c : call) : bool :=
  match c with
  | Include _ | Exclude _ => true
  | _ => false
  end.

Definition is_search (c : call) : bool :=
  match c with
  | Search_fulltext _ _ _ | Search_semantic _ _ _ _ => true
  | _ => false
  end.

Definition is_options (c : call) : bool :=
  match c with
  | Timeout _ | Explain _ | Count_total _ | Consistency _ => true
  | _ => false
  end.

(** The last call of a kind, if there is one. *)
Definition last_call (kind : call -> bool) (calls : list call)
  : option call :=
  find kind (rev calls).

(** A last-write-wins attribute: absent without a call of its kind,
    otherwise what the last such call establishes by itself (on a fresh
    builder), whatever came before. *)
Definition last_write_wins {A} (attr : builder -> option A) (kind : call -> bool)
  (calls : list call) : option A :=
  match last_call kind calls with
  | Some c => attr (invoke (__init__ "") c)
  | None => None
  end.

(** The last value a call sequence gives to one argument. *)
Definition last_arg {A} (arg : call -> option A) (calls : list call)
  : option A :=
  fold_left (fun acc c => match arg c with Some a => Some a | None => acc end)
    calls None.

Definition timeout_arg (c : call) : option Z :=
  match c with Timeout ms => Some ms | _ => None end.
Definition explain_arg (c : call) : option bool :=
  match c with Explain e => Some e | _ => None end.
Definition count_total_arg (c : call) : option bool :=
  match c with Count_total e => Some e | _ => None end.
Definition consistency_arg (c : call) : option query_pb2.ConsistencyLevel :=
  match c with Consistency l => Some (level_map_get l) | _ => None end.

(** The options of a call sequence: each field holds the argument of the
    last call to its own setter. *)
Definition merged_options (calls : list call) : option query_pb2.QueryOptions :=
  if existsb is_options calls then
    Some (query_pb2.mk_QueryOptions
            (last_arg timeout_arg calls) (last_arg count_total_arg calls)
            (last_arg consistency_arg calls) (last_arg explain_arg calls))
  else None.

Definition page_size_arg (c : call) : option Z :=
  match c with Limit n => Some n | _ => None end.
Definition cursor_arg (c : call) : option string :=
  match c with Cursor v => Some v | _ => None end.
Definition offset_arg (c : call) : option Z :=
  match c with Offset n => Some n | _ => None end.

(** The pagination the caller set: each field holds the argument of the
    last call to its own setter. *)
Definition caller_pagination (calls : list call)
  : option pagination_pb2.Pagination :=
  if existsb is_pagination calls then
    Some (pagination_pb2.mk_Pagination
            (last_arg page_size_arg calls) (last_arg cursor_arg calls)
            (last_arg offset_arg calls))
  else None.

Definition group_by_arg (c : call) : list string :=
  match c with Group_by fields => fields | _ => [] end.

(** The aggregate one call appends: the one a fresh builder holds after
    that call alone. *)
Definition aggregates_of (c : call) : list aggregation_pb2.Aggregate :=
  match _aggregation (invoke (__init__ "") c) with
  | Some a => aggregation_pb2.aggregates a
  | None => []
  end.

(** The aggregation of a call sequence: every group-by field and every
    aggregate of every call, in call order. *)
Definition accumulated_aggregation (calls : list call)
  : option aggregation_pb2.Aggregation :=
  if existsb is_aggregation calls then
    Some (aggregation_pb2.mk_Aggregation
            (flat_map group_by_arg calls) (flat_map aggregates_of calls) None)
  else None.

(** [Pagination(page_size=50)] *)
Definition default_pagination : pagination_pb2.Pagination :=
  pagination_pb2.mk_Pagination (Some 50) None None.

End Calls.

(** ** Examples from the sources *)

Module Examples.

Import QueryBuilder.

(** Example 2 of [query_builder.py]. *)
Definition query2_calls : list call :=
  [ Filter_eq "status" (Py.PyStr "completed");
    Group_by ["customer_id"];
    Count "order_count";
    Sum "total_amount" (Some "revenue");
    Avg "total_amount" (Some "avg_order_value") ].

(** [datetime(2024, 1, 15, 10, 30, tzinfo=timezone(timedelta(hours=5,
    minutes=30)))] *)
Definition aware_datetime : Py.datetime :=
  Py.mk_datetime 2024 1 15 10 30 0 0 (Some 19800000000).

(** [datetime(2024, 1, 15, 10, 30)] *)
Definition naive_datetime : Py.datetime :=
  Py.mk_datetime 2024 1 15 10 30 0 0 None.

(** A client on which [connect()] was called. *)
Definition connected : QueryClient.client :=
  QueryClient.after "localhost:50051" "tenant_demo" 30 [QueryClient.Connect].

(** [QueryBuilder("users").build()] *)
Definition users_query : query_pb2.Query :=
  query_pb2.mk_Query "users" None [] None (Some Calls.default_pagination)
    None None [] None.

(** A response that claims more pages and carries no cursor. *)
Definition more_without_cursor : QueryClient.Response :=
  QueryClient.mk_Response []
    (Some (QueryClient.mk_PaginationDict None (Some 50) (Some true) None))
    None.

(** A response with a cursor for the next page. *)
Definition more_with_cursor : QueryClient.Response :=
  QueryClient.mk_Response []
    (Some (QueryClient.mk_PaginationDict None (Some 50) (Some true)
             (Some "c1")))
    None.

End Examples.

(** ** Shapes of what the builder produces

    Decidable checks on messages, used to state what the builder can and
    cannot put into a query. *)

Module Shapes.

Import QueryBuilder.

(** The attribute of the builder a call works on. *)
Inductive attribute : Type :=
| Filters | Sorts | Projection | Pagination | Aggregation | Search | Options.

Definition touches (c : call) : attribute :=
  match c with
  | Filter_eq _ _ | Filter_ne _ _ | Filter_lt _ _ | Filter_lte _ _
  | Filter_gt _ _ | Filter_gte _ _ | Filter_in _ _ | Filter_not_in _ _
  | Filter_contains _ _ _ | Filter_starts_with _ _ | Filter_ends_with _ _
  | Filter_matches _ _ | Filter_is_null _ | Filter_is_not_null _
  | Filter_array_contains _ _ => Filters
  | Sort_asc _ _ | Sort_desc _ _ => Sorts
  | Include _ | Exclude _ => Projection
  | Limit _ | Cursor _ | Offset _ => Pagination
  | Search_fulltext _ _ _ | Search_semantic _ _ _ _ => Search
  | Group_by _ | Count _ | Sum _ _ | Avg _ _ | Min _ _ | Max _ _ =>
      Aggregation
  | Timeout _ | Explain _ | Count_total _ | Consistency _ => Options
  end.

Definition is_sort (c : call) : bool :=
  match c with
  | Sort_asc _ _ | Sort_desc _ _ => true
  | _ => false
  end.

(** The sort one call appends: the one a fresh builder holds after that
    call alone. *)
Definition sorts_of (c : call) : list sort_pb2.Sort :=
  _sorts (invoke (__init__ "") c).

Definition is_aggregate (c : call) : bool :=
  match c with
  | Count _ | Sum _ _ | Avg _ _ | Min _ _ | Max _ _ => true
  | _ => false
  end.

Definition is_nil {A} (l : list A) : bool :=
  match l with
  | [] => true
  | _ => false
  end.

Definition is_empty (s : string) : bool :=
  match s with
  | EmptyString => true
  | _ => false
  end.

(** The operands fit the operator: a list for the list operators, none
    for the null tests, exactly one for the others. *)
Definition arity_ok (c : filter_pb2.Condition) : bool :=
  match filter_pb2.operator c with
  | filter_pb2.OPERATOR_IN | filter_pb2.OPERATOR_NOT_IN
  | filter_pb2.OPERATOR_ARRAY_CONTAINS_ANY =>
      negb (Py.is_some (filter_pb2.value c))
  | filter_pb2.OPERATOR_IS_NULL | filter_pb2.OPERATOR_IS_NOT_NULL =>
      negb (Py.is_some (filter_pb2.value c)) && is_nil (filter_pb2.values c)
  | _ => Py.is_some (filter_pb2.value c) && is_nil (filter_pb2.values c)
  end.

(** The case-sensitivity flag is assigned on [CONTAINS] conditions only. *)
Definition case_flag_ok (c : filter_pb2.Condition) : bool :=
  match filter_pb2.case_sensitive c, filter_pb2.operator c with
  | Some _, filter_pb2.OPERATOR_CONTAINS => true
  | Some _, _ => false
  | None, filter_pb2.OPERATOR_CONTAINS => false
  | None, _ => true
  end.

(** A leaf condition with fitting operands, and not the one operator the
    builder has no method for. *)
Definition leaf_ok (f : filter_pb2.Filter) : bool :=
  match f with
  | filter_pb2.condition c =>
      arity_ok c && case_flag_ok c
      && match filter_pb2.operator c with
         | filter_pb2.OPERATOR_ARRAY_CONTAINS_ANY => false
         | _ => true
         end
  | _ => false
  end.

(** Nothing, one leaf, or one conjunction of at least two leaves. *)
Definition filter_ok (f : option filter_pb2.Filter) : bool :=
  match f with
  | None => true
  | Some (filter_pb2.and_ fs) =>
      (2 <=? List.length fs)%nat && forallb leaf_ok fs
  | Some f => leaf_ok f
  end.

(** A named aggregate over a named field (no field for a count), of one
    of the five functions the builder has a method for. *)
Definition aggregate_ok (a : aggregation_pb2.Aggregate) : bool :=
  negb (is_empty (aggregation_pb2.alias a))
  && negb (Py.is_some (aggregation_pb2.percentile a))
  && match aggregation_pb2.function a, aggregation_pb2.field a with
     | aggregation_pb2.AGGREGATE_FUNCTION_COUNT, None => true
     | aggregation_pb2.AGGREGATE_FUNCTION_COUNT, Some _ => false
     | ( aggregation_pb2.AGGREGATE_FUNCTION_SUM
       | aggregation_pb2.AGGREGATE_FUNCTION_AVG
       | aggregation_pb2.AGGREGATE_FUNCTION_MIN
       | aggregation_pb2.AGGREGATE_FUNCTION_MAX ), Some f => negb (is_empty f)
     | ( aggregation_pb2.AGGREGATE_FUNCTION_SUM
       | aggregation_pb2.AGGREGATE_FUNCTION_AVG
       | aggregation_pb2.AGGREGATE_FUNCTION_MIN
       | aggregation_pb2.AGGREGATE_FUNCTION_MAX ), None => true
     | _, _ => false
     end.

Definition aggregation_ok (a : option aggregation_pb2.Aggregation) : bool :=
  match a with
  | Some a =>
      forallb aggregate_ok (aggregation_pb2.aggregates a)
      && negb (Py.is_some (aggregation_pb2.having a))
  | None => true
  end.

(** Included fields or excluded fields, never both. *)
Definition projection_ok (p : option query_pb2.Projection) : bool :=
  match p with
  | Some p => is_nil (query_pb2.include p) || is_nil (query_pb2.exclude p)
  | None => true
  end.

(** A full-text search without a vector part or a semantic search without
    a text-field list; no boosts. *)
Definition search_ok (s : option search_pb2.Search) : bool :=
  match s with
  | Some s =>
      is_nil (search_pb2.boost s)
      && match search_pb2.type s with
         | search_pb2.SEARCH_TYPE_FULL_TEXT =>
             negb (Py.is_some (search_pb2.vector_field s))
             && is_nil (search_pb2.embedding s)
         | search_pb2.SEARCH_TYPE_SEMANTIC =>
             Py.is_some (search_pb2.vector_field s)
             && is_nil (search_pb2.fields s)
         | search_pb2.SEARCH_TYPE_HYBRID => false
         end
  | None => true
  end.

(** All of the above on the attributes of a builder. *)
Definition builder_ok (b : builder) : bool :=
  forallb leaf_ok (_filters b)
  && aggregation_ok (_aggregation b)
  && projection_ok (_projection b)
  && search_ok (_search b)
  && is_nil (_relations b).

End Shapes.

(** ** Test doubles and lifecycle of the client *)

Module Doubles.

Import Py QueryClient.

(** A test double for [execute_query] that replays a list of outcomes,
    as [replay] does, and records the query of every request. *)
Record recorder : Type := mk_recorder {
  script : list (outcome Response);
  requests : list query_pb2.Query
}.

Definition recording (self : recorder) (query : query_pb2.Query)
  : outcome Response * (recorder * query_pb2.Query) :=
  match script self with
  | r :: rest =>
      (r, (mk_recorder rest (requests self ++ [query]), query))
  | [] =>
      (Raised (RpcError "UNAVAILABLE" ""),
       (mk_recorder [] (requests self ++ [query]), query))
  end.

(** The cursor a response hands on ([""] when it has none). *)
Definition cursor_of (response : Response) : string :=
  or_str (nextCursor (get_pagination response)) "".

(** The requests of a pagination run that starts with [query] and gets
    the pages [pages]: each one is the previous one with the cursor of
    the previous page assigned. One more than there are pages. *)
Fixpoint threaded (query : query_pb2.Query) (pages : list Response)
  : list query_pb2.Query :=
  query ::
  match pages with
  | [] => []
  | p :: rest => threaded (assign_cursor query (cursor_of p)) rest
  end.

(** A response after which [execute_paginated] goes on. *)
Definition has_next (response : Response) : bool :=
  truthy_str (nextCursor (get_pagination response))
  && truthy_bool (hasMore (get_pagination response)).

Definition is_connect (c : client_call) : bool :=
  match c with
  | Connect => true
  | Close => false
  end.

(** The last call is [close()]. *)
Definition ends_with_close (calls : list client_call) : bool :=
  match rev calls with
  | Close :: _ => true
  | _ => false
  end.

End Doubles.

(** ** [grpc_client.py]: [_handle_grpc_error]

    The method only prints; it is given here by the line it prints. *)

Module GrpcError.

(** [grpc.StatusCode] *)
Inductive StatusCode : Type :=
| OK | CANCELLED | UNKNOWN | INVALID_ARGUMENT | DEADLINE_EXCEEDED
| NOT_FOUND | ALREADY_EXISTS | PERMISSION_DENIED | RESOURCE_EXHAUSTED
| FAILED_PRECONDITION | ABORTED | OUT_OF_RANGE | UNIMPLEMENTED | INTERNAL
| UNAVAILABLE | DATA_LOSS | UNAUTHENTICATED.

(** [code.name] *)
Definition name (code : StatusCode) : string :=
  match code with
  | OK => "OK" | CANCELLED => "CANCELLED" | UNKNOWN => "UNKNOWN"
  | INVALID_ARGUMENT => "INVALID_ARGUMENT"
  | DEADLINE_EXCEEDED => "DEADLINE_EXCEEDED"
  | NOT_FOUND => "NOT_FOUND" | ALREADY_EXISTS => "ALREADY_EXISTS"
  | PERMISSION_DENIED => "PERMISSION_DENIED"
  | RESOURCE_EXHAUSTED => "RESOURCE_EXHAUSTED"
  | FAILED_PRECONDITION => "FAILED_PRECONDITION" | ABORTED => "ABORTED"
  | OUT_OF_RANGE => "OUT_OF_RANGE" | UNIMPLEMENTED => "UNIMPLEMENTED"
  | INTERNAL => "INTERNAL" | UNAVAILABLE => "UNAVAILABLE"
  | DATA_LOSS => "DATA_LOSS" | UNAUTHENTICATED => "UNAUTHENTICATED"
  end.

(** [error_messages.get(code, f"Query failed: {details}")] *)
Definition message (code : StatusCode) (details : string) : string :=
  match code with
  | INVALID_ARGUMENT => "Invalid query: " ++ details
  | NOT_FOUND => "Entity not found: " ++ details
  | PERMISSION_DENIED => "Access denied: " ++ details
  | UNAUTHENTICATED => "Authentication required"
  | DEADLINE_EXCEEDED => "Query timeout"
  | RESOURCE_EXHAUSTED => "Rate limit exceeded"
  | UNAVAILABLE => "Service unavailable"
  | _ => "Query failed: " ++ details
  end.

(** The line [_handle_grpc_error] prints for an error with this status
    code and these details. *)
Definition _handle_grpc_error (code : StatusCode) (details : string)
  : string :=
  "Error [" ++ name code ++ "]: " ++ message code details.

(** The codes whose message has no place for the details. *)
Definition fixed_message (code : StatusCode) : bool :=
  match code with
  | UNAUTHENTICATED | DEADLINE_EXCEEDED | RESOURCE_EXHAUSTED
  | UNAVAILABLE => true
  | _ => false
  end.

End GrpcError.

(** ** [run_all.py]

    The file system and the import machinery are given by what they
    answer for each example file. *)

Module run_all.

(** An exception that [except Exception] does not catch. *)
Inductive base_exception : Type :=
| SystemExit (code : Z)
| KeyboardInterrupt
| OtherBaseException (name : string).

(** What executing a module or calling its [main] does: it returns, it
    raises an exception [e] that is an [Exception] (kept as the text
    [str(e)]), or it raises one that is not. *)
Inductive effect : Type :=
| Returns
| Raises (text : string)
| Escapes (e : base_exception).

(** What loading one example file gives: whether a module spec with a
    loader is found, what executing the module does, and what calling
    its [main] does ([None]: the module defines no [main]). *)
Record example_module : Type := mk_example_module {
  spec_found : bool;
  exec_module : effect;
  main_attr : option effect
}.

(** How a function ends: it returns a value, or an exception that is not
    an [Exception] passes through it. *)
Inductive ended (A : Type) : Type :=
| Done (a : A)
| Propagates (e : base_exception).
Arguments Done {A} a.
Arguments Propagates {A} e.

(** [run_example_module]; its [except Exception] clause turns an
    [Exception] into [(False, str(e))] and lets every other exception
    through. *)
Definition run_example_module (m : example_module) : ended (bool * string) :=
  if negb (spec_found m) then Done (false, "Could not load module")
  else
    match exec_module m with
    | Raises e => Done (false, e)
    | Escapes e => Propagates e
    | Returns =>
        (* Run main function if exists *)
        match main_attr m with
        | Some Returns => Done (true, "")
        | Some (Raises e) => Done (false, e)
        | Some (Escapes e) => Propagates e
        | None => Done (false, "No main() function found")
        end
    end.

(** List of example files to run *)
Definition example_files : list string :=
  ["basic_queries.py"; "advanced_queries.py"; "ecommerce_examples.py";
   "query_builder.py"].

(** The [for example_file in example_files] loop of [main], entered
    with the results so far: [files example_file] is [None] when the
    path does not exist. *)
Fixpoint run_files (files : string -> option example_module)
  (todo : list string) (results : list (string * bool * string))
  : ended (list (string * bool * string)) :=
  match todo with
  | [] => Done results
  | example_file :: todo' =>
      match files example_file with
      | None =>
          run_files files todo'
            (results ++ [(example_file, false, "File not found")])
      | Some m =>
          match run_example_module m with
          | Done (success, error) =>
              run_files files todo'
                (results ++ [(example_file, success, error)])
          | Propagates e => Propagates e
          end
      end
  end.

(** [main()]: [Done status] when it reaches [sys.exit(status)]. *)
Definition main (files : string -> option example_module) : ended Z :=
  match run_files files example_files [] with
  | Done results =>
      let passed :=
        List.length (List.filter (fun r => snd (fst r)) results) in
      let total := List.length results in
      Done (if (passed <? total)%nat then 1 else 0)
  | Propagates e => Propagates e
  end.

(** An example file that exists, loads, and whose [main()] returns. *)
Definition runs (files : string -> option example_module)
  (example_file : string) : bool :=
  match files example_file with
  | Some m =>
      spec_found m
      && match exec_module m, main_attr m with
         | Returns, Some Returns => true
         | _, _ => false
         end
  | None => false
  end.

(** The exception, not an [Exception], that loading an example file
    lets through, if it does. *)
Definition escape (files : string -> option example_module)
  (example_file : string) : option base_exception :=
  match files example_file with
  | Some m =>
      if negb (spec_found m) then None
      else
        match exec_module m, main_attr m with
        | Escapes e, _ => Some e
        | Returns, Some (Escapes e) => Some e
        | _, _ => None
        end
  | None => None
  end.

(** The first such exception over a list of files, in list order. *)
Fixpoint first_escape (files : string -> option example_module)
  (todo : list string) : option base_exception :=
  match todo with
  | [] => None
  | example_file :: todo' =>
      match escape files example_file with
      | Some e => Some e
      | None => first_escape files todo'
      end
  end.

(** A file system in which every example file exists and loads, and
    every module that defines [main] runs it to its end;
    [query_builder.py] is loaded as the source has it: it defines no
    [main]. *)
Definition all_present (example_file : string) : option example_module :=
  if String.eqb example_file "query_builder.py"
  then Some (mk_example_module true Returns None)
  else Some (mk_example_module true Returns (Some Returns)).

End run_all.

(** ** [grpc_client.py]: the example functions and [main]

    Each example makes a client, connects, runs one operation inside
    [try], and closes the client in [finally]. It is given by what the
    call produces and the client it leaves. *)

Module ClientExamples.

Import Py QueryClient.

(** [client = QueryClient(tenant_id="tenant_demo")] *)
Definition demo_client : client :=
  __init__ "localhost:50051" "tenant_demo" 30.

Definition example_1_simple_query : outcome unit * client :=
  let client := connect demo_client in
  let query :=
    query_pb2.mk_Query "users"
      (Some (filter_pb2.condition
               (filter_pb2.mk_Condition "status" filter_pb2.OPERATOR_EQ
                  (Some (struct_pb2.string_value "active")) [] None)))
      [sort_pb2.mk_Sort "created_at" sort_pb2.SORT_DIRECTION_DESC None]
      None (Some (pagination_pb2.mk_Pagination (Some 50) None None))
      None None [] None in
  match execute_query client query with
  | (Returned response, (client, _)) => (Returned tt, close client)
  | (Raised e, (client, _)) => (Raised e, close client)
  end.

(** The [for] loop consumes the generator to its end; [None] stands for
    a loop of [execute_paginated] that does not end. *)
Definition example_2_paginated_query : option (outcome unit * client) :=
  let client := connect demo_client in
  let query :=
    query_pb2.mk_Query "products" None [] None
      (Some (pagination_pb2.mk_Pagination (Some 100) None None))
      None None [] None in
  match execute_paginated client query 5 with
  | Some r => Some (ending r, close (fst (final r)))
  | None => None
  end.

Definition example_3_explain_query : outcome unit * client :=
  let client := connect demo_client in
  let query :=
    query_pb2.mk_Query "orders"
      (Some (filter_pb2.and_
               [filter_pb2.condition
                  (filter_pb2.mk_Condition "total_amount"
                     filter_pb2.OPERATOR_GTE
                     (Some (struct_pb2.number_value (struct_pb2.of_int 1000)))
                     [] None);
                filter_pb2.condition
                  (filter_pb2.mk_Condition "status" filter_pb2.OPERATOR_EQ
                     (Some (struct_pb2.string_value "completed")) [] None)]))
      [] None None None None [] None in
  match explain_query client query with
  | (Returned explain, (client, _)) => (Returned tt, close client)
  | (Raised e, (client, _)) => (Raised e, close client)
  end.

(** The inner [except] clause handles [grpc.RpcError] only. *)
Definition example_4_error_handling : outcome unit * client :=
  let client := connect demo_client in
  let query :=
    query_pb2.mk_Query "" None [] None
      (Some (pagination_pb2.mk_Pagination (Some 50) None None))
      None None [] None in
  match execute_query client query with
  | (Returned response, (client, _)) => (Returned tt, close client)
  | (Raised (RpcError _ _), (client, _)) => (Returned tt, close client)
  | (Raised e, (client, _)) => (Raised e, close client)
  end.

(** [main()]: it runs the four examples in order and catches what they
    raise; it is given by what each example produced, under its name. *)
Definition main : list (string * option (outcome unit)) :=
  [ ("Simple Query", Some (fst example_1_simple_query));
    ("Paginated Query", option_map fst example_2_paginated_query);
    ("Explain Query", Some (fst example_3_explain_query));
    ("Error Handling", Some (fst example_4_error_handling)) ].

(** The clients the four examples leave behind. *)
Definition clients_left : list (option client) :=
  [ Some (snd example_1_simple_query);
    option_map snd example_2_paginated_query;
    Some (snd example_3_explain_query);
    Some (snd example_4_error_handling) ].

End ClientExamples.

(** ** The builder: what [build] puts into the query *)

Module BuilderFacts.

Import QueryBuilder Calls.
Local Open Scope list_scope.

(** [build] returns, leaves the builder as it was, and each field of the
    query is read off one attribute of the builder. *)
Lemma build_fields (b : builder) :
  exists q,
    build b = (Py.Returned q, b)
    /\ query_pb2.entity q = _entity b
    /\ query_pb2.filter q =
         match _filters b with
         | [] => None
         | [f] => Some f
         | _ => Some (filter_pb2.and_ (_filters b))
         end
    /\ query_pb2.sort q = _sorts b
    /\ query_pb2.projection q = _projection b
    /\ query_pb2.pagination q =
         match _pagination b, _aggregation b with
         | Some p, _ => Some p
         | None, None => Some default_pagination
         | None, Some _ => None
         end
    /\ query_pb2.aggregation q = _aggregation b
    /\ query_pb2.search q = _search b
    /\ query_pb2.relation q = _relations b
    /\ query_pb2.options q = _options b.
Proof.
  unfold build. eexists. split; [reflexivity|].
  destruct b as [e fs ss pr pg ag se rl op]; cbn [_entity _filters _sorts
    _projection _pagination _aggregation _search _relations _options].
  destruct fs as [|f [|f' fs]], ss, pr, pg, ag, se, rl, op;
    repeat split; reflexivity.
Qed.

Lemma chain_last entity calls c :
  chain entity (calls ++ [c]) = invoke (chain entity calls) c.
Proof. unfold chain. now rewrite fold_left_app. Qed.

(** *** Filters *)

Lemma filters_invoke b c : _filters (invoke b c) = _filters b ++ filters_of c.
Proof.
  destruct c; cbn; try reflexivity; now rewrite app_nil_r.
Qed.

Lemma filters_chain entity calls :
  _filters (chain entity calls) = accumulated calls.
Proof.
  induction calls as [|c calls IH] using rev_ind.
  - reflexivity.
  - rewrite chain_last, filters_invoke, IH.
    unfold accumulated. rewrite flat_map_app. cbn. now rewrite app_nil_r.
Qed.

Lemma filters_of_length c :
  List.length (filters_of c) = if is_filter c then 1%nat else 0%nat.
Proof. destruct c; reflexivity. Qed.

Lemma accumulated_length calls :
  List.length (accumulated calls) = List.length (List.filter is_filter calls).
Proof.
  induction calls as [|c calls IH]; [reflexivity|].
  unfold accumulated in *. cbn [flat_map List.filter].
  rewrite List.length_app, filters_of_length, IH.
  now destruct (is_filter c).
Qed.

(** *** Attributes that are created on first use *)

Lemma aggregation_invoke b c :
  _aggregation (invoke b c) =
    if is_aggregation c then
      let a := get_or_create (_aggregation b) aggregation_pb2.new_Aggregation in
      Some (aggregation_pb2.mk_Aggregation
              (aggregation_pb2.group_by a ++ group_by_arg c)
              (aggregation_pb2.aggregates a ++ aggregates_of c)
              (aggregation_pb2.having a))
    else _aggregation b.
Proof.
  destruct c; cbn; try reflexivity; now rewrite ?app_nil_r.
Qed.

Lemma no_aggregation_call calls :
  existsb is_aggregation calls = false ->
  flat_map group_by_arg calls = [] /\ flat_map aggregates_of calls = [].
Proof.
  induction calls as [|c calls IH]; [now split|].
  cbn [existsb flat_map]. intros H.
  apply orb_false_elim in H as [Hc Hcalls].
  destruct (IH Hcalls) as [-> ->].
  destruct c; try discriminate Hc; now split.
Qed.

Lemma not_aggregation_call c :
  is_aggregation c = false -> group_by_arg c = [] /\ aggregates_of c = [].
Proof. destruct c; try discriminate; now split. Qed.

Lemma aggregation_chain entity calls :
  _aggregation (chain entity calls) = accumulated_aggregation calls.
Proof.
  induction calls as [|c calls IH] using rev_ind.
  - reflexivity.
  - rewrite chain_last, aggregation_invoke, IH.
    unfold accumulated_aggregation.
    rewrite existsb_app, !flat_map_app. cbn [existsb flat_map].
    rewrite !app_nil_r, orb_false_r.
    destruct (existsb is_aggregation calls) eqn:E.
    + destruct (is_aggregation c) eqn:Ec; [reflexivity|].
      destruct (not_aggregation_call c Ec) as [-> ->].
      now rewrite !app_nil_r.
    + destruct (no_aggregation_call calls E) as [-> ->].
      now destruct (is_aggregation c).
Qed.

(** *** Attributes that are replaced as a whole *)

Lemma last_call_last kind calls c :
  last_call kind (calls ++ [c]) =
    if kind c then Some c else last_call kind calls.
Proof. unfold last_call. now rewrite rev_app_distr. Qed.

Lemma projection_invoke b c :
  _projection (invoke b c) =
    if is_projection c then _projection (invoke (__init__ "") c)
    else _projection b.
Proof. destruct c; reflexivity. Qed.

Lemma projection_chain entity calls :
  _projection (chain entity calls) =
    last_write_wins _projection is_projection calls.
Proof.
  induction calls as [|c calls IH] using rev_ind.
  - reflexivity.
  - rewrite chain_last, projection_invoke, IH.
    unfold last_write_wins. rewrite last_call_last.
    now destruct (is_projection c).
Qed.

Lemma search_invoke b c :
  _search (invoke b c) =
    if is_search c then _search (invoke (__init__ "") c) else _search b.
Proof. destruct c; reflexivity. Qed.

Lemma search_chain entity calls :
  _search (chain entity calls) = last_write_wins _search is_search calls.
Proof.
  induction calls as [|c calls IH] using rev_ind.
  - reflexivity.
  - rewrite chain_last, search_invoke, IH.
    unfold last_write_wins. rewrite last_call_last.
    now destruct (is_search c).
Qed.

Lemma relations_chain entity calls : _relations (chain entity calls) = [].
Proof.
  induction calls as [|c calls IH] using rev_ind.
  - reflexivity.
  - rewrite chain_last. now destruct c.
Qed.

(** *** Options: one message, one setter per field *)

Lemma last_arg_last {A} (arg : call -> option A) calls c :
  last_arg arg (calls ++ [c]) =
    match arg c with
    | Some a => Some a
    | None => last_arg arg calls
    end.
Proof. unfold last_arg. now rewrite fold_left_app. Qed.

Lemma last_arg_none {A} (arg : call -> option A) calls :
  forallb (fun c => negb (Py.is_some (arg c))) calls = true ->
  last_arg arg calls = None.
Proof.
  induction calls as [|c calls IH] using rev_ind; [reflexivity|].
  rewrite forallb_app, last_arg_last. cbn. rewrite andb_true_r.
  intros H. apply andb_prop in H as [Hcalls Hc].
  destruct (arg c); [discriminate|]. now apply IH.
Qed.

Lemma no_options_call calls :
  existsb is_options calls = false ->
  last_arg timeout_arg calls = None
  /\ last_arg count_total_arg calls = None
  /\ last_arg consistency_arg calls = None
  /\ last_arg explain_arg calls = None.
Proof.
  intros H.
  assert (Hall : forall c, In c calls -> is_options c = false).
  { intros c Hin. destruct (is_options c) eqn:E; [|reflexivity].
    rewrite <- H. symmetry. apply existsb_exists. now exists c. }
  repeat split; apply last_arg_none, forallb_forall; intros c Hin;
    specialize (Hall c Hin); destruct c; try reflexivity; discriminate.
Qed.

Lemma options_invoke b c :
  _options (invoke b c) =
    if is_options c then
      let o := get_or_create (_options b) query_pb2.no_options in
      Some (query_pb2.mk_QueryOptions
              (match timeout_arg c with
               | Some v => Some v | None => query_pb2.timeout_ms o end)
              (match count_total_arg c with
               | Some v => Some v | None => query_pb2.count_total o end)
              (match consistency_arg c with
               | Some v => Some v | None => query_pb2.consistency o end)
              (match explain_arg c with
               | Some v => Some v | None => query_pb2.explain o end))
    else _options b.
Proof. destruct c; reflexivity. Qed.

Lemma options_chain entity calls :
  _options (chain entity calls) = merged_options calls.
Proof.
  induction calls as [|c calls IH] using rev_ind.
  - reflexivity.
  - rewrite chain_last, options_invoke, IH.
    unfold merged_options.
    rewrite existsb_app, !last_arg_last. cbn [existsb].
    rewrite orb_false_r.
    destruct (existsb is_options calls) eqn:E.
    + destruct c; reflexivity.
    + destruct (no_options_call calls E) as (-> & -> & -> & ->).
      destruct c; reflexivity.
Qed.

(** *** Pagination: one message, one setter per field *)

Lemma no_pagination_call calls :
  existsb is_pagination calls = false ->
  last_arg page_size_arg calls = None
  /\ last_arg cursor_arg calls = None
  /\ last_arg offset_arg calls = None.
Proof.
  intros H.
  assert (Hall : forall c, In c calls -> is_pagination c = false).
  { intros c Hin. destruct (is_pagination c) eqn:E; [|reflexivity].
    rewrite <- H. symmetry. apply existsb_exists. now exists c. }
  repeat split; apply last_arg_none, forallb_forall; intros c Hin;
    specialize (Hall c Hin); destruct c; try reflexivity; discriminate.
Qed.

Lemma pagination_invoke_value b c :
  _pagination (invoke b c) =
    if is_pagination c then
      let p := get_or_create (_pagination b) pagination_pb2.new_Pagination in
      Some (pagination_pb2.mk_Pagination
              (match page_size_arg c with
               | Some v => Some v | None => pagination_pb2.page_size p end)
              (match cursor_arg c with
               | Some v => Some v | None => pagination_pb2.cursor p end)
              (match offset_arg c with
               | Some v => Some v | None => pagination_pb2.offset p end))
    else _pagination b.
Proof. destruct c; reflexivity. Qed.

Lemma pagination_chain_value entity calls :
  _pagination (chain entity calls) = caller_pagination calls.
Proof.
  induction calls as [|c calls IH] using rev_ind.
  - reflexivity.
  - rewrite chain_last, pagination_invoke_value, IH.
    unfold caller_pagination.
    rewrite existsb_app, !last_arg_last. cbn [existsb].
    rewrite orb_false_r.
    destruct (existsb is_pagination calls) eqn:E.
    + destruct c; reflexivity.
    + destruct (no_pagination_call calls E) as (-> & -> & ->).
      destruct c; reflexivity.
Qed.

End BuilderFacts.

(** ** The builder: statements about [build] *)

Module BuilderClaims.

Import QueryBuilder Calls BuilderFacts.
Local Open Scope list_scope.

(** C1. For every entity and every sequence of builder calls, [build]
    returns a query whose filter is absent when the calls accumulated no
    filter, is the accumulated filter itself (no wrapper) when there is
    exactly one, and is one [and_] composite over all accumulated filters
    in call order when there are two or more; every filter call
    accumulates one filter. *)
Theorem build_filter_normalization (entity : string) (calls : list call) :
  exists q,
    fst (build (chain entity calls)) = Py.Returned q
    /\ query_pb2.filter q =
         match accumulated calls with
         | [] => None
         | [f] => Some f
         | fs => Some (filter_pb2.and_ fs)
         end
    /\ List.length (accumulated calls) = List.length (List.filter is_filter calls).
Proof.
  destruct (build_fields (chain entity calls)) as (q & Hb & _ & Hf & _).
  exists q. rewrite Hb. split; [reflexivity|]. split.
  - rewrite Hf, filters_chain. now destruct (accumulated calls) as [|f [|f' fs]].
  - apply accumulated_length.
Qed.

(** C3. For every entity and every sequence of builder calls, the
    pagination of the built query is: the caller's own pagination when a
    page size, cursor or offset was set; otherwise absent when an
    aggregation was configured; otherwise the default pagination with
    page size 50. *)
Theorem build_default_pagination (entity : string) (calls : list call) :
  exists q,
    fst (build (chain entity calls)) = Py.Returned q
    /\ query_pb2.pagination q =
         if existsb is_pagination calls then caller_pagination calls
         else if existsb is_aggregation calls then None
         else Some (pagination_pb2.mk_Pagination (Some 50) None None).
Proof.
  destruct (build_fields (chain entity calls))
    as (q & Hb & _ & _ & _ & _ & Hp & _).
  exists q. rewrite Hb. split; [reflexivity|].
  rewrite Hp, pagination_chain_value, aggregation_chain.
  unfold caller_pagination, accumulated_aggregation.
  destruct (existsb is_pagination calls); [reflexivity|].
  now destruct (existsb is_aggregation calls).
Qed.

(** C4. For every builder state, [build] returns a query and leaves the
    builder as it was, and a second [build] on the builder it left
    returns an equal query. *)
Theorem build_idempotent (b : builder) :
  exists q,
    build b = (Py.Returned q, b)
    /\ fst (build (snd (build b))) = Py.Returned q.
Proof.
  destruct (build_fields b) as (q & Hb & _).
  exists q. split; [exact Hb|].
  rewrite Hb. cbn [snd]. now rewrite Hb.
Qed.

(** C5, as stated, fails for the aggregation: after the calls of the
    module's own second example, the built aggregation holds the group-by
    field and all three aggregates, not only what the last call ([avg])
    establishes. *)
Lemma aggregation_accumulates :
  exists q,
    fst (build (chain "orders" Examples.query2_calls)) = Py.Returned q
    /\ query_pb2.aggregation q <>
         last_write_wins _aggregation is_aggregation Examples.query2_calls.
Proof.
  eexists. split; [reflexivity|]. cbv. discriminate.
Qed.

(** C5, amended. For every entity and every sequence of builder calls:
    projection and search are last-write-wins (absent without a call of
    their kind, otherwise what the last such call alone establishes);
    options are absent without an options call and otherwise hold, per
    field, the argument of the last call to that field's setter;
    the aggregation is absent without an aggregation call and otherwise
    holds the group-by fields and the aggregates of all calls in call
    order; the relation list is empty. *)
Theorem build_optional_fields (entity : string) (calls : list call) :
  exists q,
    fst (build (chain entity calls)) = Py.Returned q
    /\ query_pb2.projection q = last_write_wins _projection is_projection calls
    /\ query_pb2.search q = last_write_wins _search is_search calls
    /\ query_pb2.options q = merged_options calls
    /\ query_pb2.aggregation q = accumulated_aggregation calls
    /\ query_pb2.relation q = [].
Proof.
  destruct (build_fields (chain entity calls))
    as (q & Hb & _ & _ & _ & Hpr & _ & Hag & Hse & Hrl & Hop).
  exists q. rewrite Hb. split; [reflexivity|].
  rewrite Hpr, Hse, Hop, Hag, Hrl.
  rewrite projection_chain, search_chain, options_chain, aggregation_chain,
    relations_chain.
  now repeat split.
Qed.

(** C6, as stated, fails: [QueryBuilder("").build()] does not raise. *)
Lemma build_empty_entity_returns :
  ~ exists e, fst (build (__init__ "")) = Py.Raised e.
Proof. intros [e H]. discriminate H. Qed.

(** C6, amended. [build] validates nothing: for every sequence of calls
    on a builder made with the empty entity name, it returns a query
    whose entity is the empty string. *)
Theorem build_never_fails (calls : list call) :
  exists q,
    fst (build (chain "" calls)) = Py.Returned q
    /\ query_pb2.entity q = "".
Proof.
  destruct (build_fields (chain "" calls)) as (q & Hb & He & _).
  exists q. rewrite Hb. split; [reflexivity|].
  rewrite He. clear.
  induction calls as [|c calls IH] using rev_ind; [reflexivity|].
  rewrite chain_last. now destruct c.
Qed.

End BuilderClaims.

(** ** The client: the pagination loop and the query object *)

Module ClientFacts.

Import Py QueryClient.
Local Open Scope list_scope.

Lemma same_but_cursor_refl q : same_but_cursor q q.
Proof. unfold same_but_cursor. now repeat split. Qed.

Lemma same_but_cursor_trans q1 q2 q3 :
  same_but_cursor q1 q2 -> same_but_cursor q2 q3 -> same_but_cursor q1 q3.
Proof.
  unfold same_but_cursor. intros H12 H23.
  repeat match goal with H : _ /\ _ |- _ => destruct H end.
  repeat split; congruence.
Qed.

Lemma same_but_cursor_assign q c : same_but_cursor q (assign_cursor q c).
Proof.
  unfold same_but_cursor, assign_cursor, read_page_size, read_offset.
  repeat split; cbn; now destruct (query_pb2.pagination q).
Qed.

Section Loop.

Context {C : Type}.
Variable exec :
  C -> query_pb2.Query -> outcome Response * (C * query_pb2.Query).

(** Fuel above the number of pages still allowed is enough: the loop
    ends, yields no more pages than allowed, and a page without a usable
    cursor or without [hasMore] is the last one, after which the
    generator is exhausted. *)
Lemma paginate_sufficient fuel max_pages :
  forall page cursor self query,
    (Z.to_nat (max_pages - page) < fuel)%nat ->
    exists r,
      paginate exec fuel max_pages page cursor self query = Some r
      /\ (List.length (pages r) <= Z.to_nat (max_pages - page))%nat
      /\ forall i resp,
           nth_error (pages r) i = Some resp ->
           truthy_bool (hasMore (get_pagination resp)) = false
           \/ truthy_str (nextCursor (get_pagination resp)) = false ->
           List.length (pages r) = S i /\ ending r = Returned tt.
Proof.
  induction fuel as [|fuel IH]; intros page cursor self query Hfuel; [lia|].
  cbn [paginate].
  destruct (page <? max_pages) eqn:Hlt.
  - apply Z.ltb_lt in Hlt.
    match goal with
    | |- context [exec self ?q] => destruct (exec self q) as [[response|e] [self' query']]
    end.
    + destruct (negb (truthy_str (nextCursor (get_pagination response)))
                || negb (truthy_bool (hasMore (get_pagination response))))
        eqn:Hstop.
      * eexists. split; [reflexivity|]. cbn. split; [lia|].
        intros [|i] resp Hnth _; [now split|].
        now destruct i.
      * destruct (IH (page + 1) (nextCursor (get_pagination response))
                    self' query') as (r & Hr & Hlen & Hlast); [lia|].
        rewrite Hr. eexists. split; [reflexivity|]. cbn. split; [lia|].
        intros [|i] resp Hnth Hend.
        -- cbn in Hnth. injection Hnth as <-.
           apply orb_false_elim in Hstop as [Hc Hm].
           apply negb_false_iff in Hc, Hm.
           destruct Hend as [Hend|Hend]; congruence.
        -- cbn in Hnth. destruct (Hlast i resp Hnth Hend) as [-> ->].
           now split.
    + eexists. split; [reflexivity|]. cbn. split; [lia|].
      intros [|i] resp Hnth; discriminate Hnth.
  - eexists. split; [reflexivity|]. cbn. split; [lia|].
    intros [|i] resp Hnth; discriminate Hnth.
Qed.

(** A result does not depend on how much fuel was left over. *)
Lemma paginate_more_fuel fuel max_pages :
  forall page cursor self query r,
    paginate exec fuel max_pages page cursor self query = Some r ->
    forall k, paginate exec (k + fuel) max_pages page cursor self query = Some r.
Proof.
  induction fuel as [|fuel IH]; intros page cursor self query r H k;
    [discriminate H|].
  rewrite Nat.add_succ_r. cbn [paginate] in *.
  destruct (page <? max_pages); [|exact H].
  match goal with
  | |- context [exec self ?q] => destruct (exec self q) as [[response|e] [self' query']]
  end; [|exact H].
  destruct (negb (truthy_str (nextCursor (get_pagination response)))
            || negb (truthy_bool (hasMore (get_pagination response))));
    [exact H|].
  destruct (paginate exec fuel max_pages (page + 1) _ self' query')
    as [r'|] eqn:Hr; [|discriminate H].
  now rewrite (IH _ _ _ _ _ Hr k).
Qed.

Lemma execute_paginated_sufficient self query max_pages :
  exists r,
    execute_paginated_ exec self query max_pages = Some r
    /\ (List.length (pages r) <= Z.to_nat max_pages)%nat
    /\ forall i resp,
         nth_error (pages r) i = Some resp ->
         truthy_bool (hasMore (get_pagination resp)) = false
         \/ truthy_str (nextCursor (get_pagination resp)) = false ->
         List.length (pages r) = S i /\ ending r = Returned tt.
Proof.
  unfold execute_paginated_.
  destruct (paginate_sufficient (S (Z.to_nat max_pages)) max_pages 0 None
              self query) as (r & Hr & Hlen & Hlast).
  - rewrite Z.sub_0_r. lia.
  - rewrite Z.sub_0_r in Hlen. now exists r.
Qed.

(** When [execute_query] leaves the query object alone, the loop changes
    nothing in it but [pagination.cursor]. *)
Lemma paginate_frame fuel max_pages :
  (forall s q, snd (snd (exec s q)) = q) ->
  forall page cursor self query r,
    paginate exec fuel max_pages page cursor self query = Some r ->
    same_but_cursor query (snd (final r)).
Proof.
  intros Hexec.
  induction fuel as [|fuel IH]; intros page cursor self query r H;
    [discriminate H|].
  cbn [paginate] in H.
  destruct (page <? max_pages);
    [|injection H as <-; apply same_but_cursor_refl].
  set (query1 := match cursor with
                 | Some c =>
                     if truthy_str cursor then assign_cursor query c else query
                 | None => query
                 end) in H.
  assert (H1 : same_but_cursor query query1).
  { subst query1. destruct cursor as [c|]; [|apply same_but_cursor_refl].
    destruct (truthy_str (Some c));
      [apply same_but_cursor_assign|apply same_but_cursor_refl]. }
  pose proof (Hexec self query1) as Hq.
  destruct (exec self query1) as [[response|e] [self' query']];
    cbn [snd] in Hq; subst query'.
  - destruct (negb (truthy_str (nextCursor (get_pagination response)))
              || negb (truthy_bool (hasMore (get_pagination response)))).
    + injection H as <-. exact H1.
    + destruct (paginate exec fuel max_pages (page + 1) _ self' query1)
        as [r'|] eqn:Hr; [|discriminate H].
      injection H as <-. cbn [yield final].
      exact (same_but_cursor_trans _ _ _ H1 (IH _ _ _ _ _ Hr)).
  - injection H as <-. exact H1.
Qed.

End Loop.

(** *** The methods of [QueryClient] itself *)

Lemma stub_after host tenant_id timeout calls :
  _stub (after host tenant_id timeout calls) = None.
Proof.
  unfold after.
  induction calls as [|c calls IH] using rev_ind; [reflexivity|].
  rewrite fold_left_app. cbn [fold_left].
  destruct c; cbn; [exact IH|].
  unfold close. now destruct (_channel _).
Qed.

(** [execute_query] returns or raises with the client and the query
    object as they were. *)
Lemma execute_query_state self query :
  snd (execute_query self query) = (self, query).
Proof.
  unfold execute_query. destruct (_stub self); [|reflexivity].
  destruct (MessageToDict _) as [d|[]]; reflexivity.
Qed.

Lemma execute_query_after host tenant_id timeout calls query :
  execute_query (after host tenant_id timeout calls) query =
    (Raised (RuntimeError "Not connected. Call connect() first."),
     (after host tenant_id timeout calls, query)).
Proof. unfold execute_query. now rewrite stub_after. Qed.

(** On such a client the first request of [execute_paginated] raises:
    nothing is yielded and nothing is written. *)
Lemma execute_paginated_not_connected host tenant_id timeout calls query
  max_pages :
  exists r,
    execute_paginated (after host tenant_id timeout calls) query max_pages
      = Some r
    /\ pages r = []
    /\ final r = (after host tenant_id timeout calls, query).
Proof.
  unfold execute_paginated, execute_paginated_. cbn [paginate truthy_str].
  destruct (0 <? max_pages).
  - rewrite execute_query_after. eexists. now repeat split.
  - eexists. now repeat split.
Qed.

Lemma explain_query_state self query :
  snd (explain_query self query) =
    (self, if read_explain query then query else assign_explain query).
Proof.
  unfold explain_query, explain_query_.
  destruct (read_explain query); cbn [negb];
    match goal with
    | |- context [execute_query self ?q] =>
        pose proof (execute_query_state self q) as Hs;
        destruct (execute_query self q) as [[response|e] st]
    end; cbn [snd] in *; subst st; try reflexivity;
    now destruct (explain response).
Qed.

End ClientFacts.

(** ** The pagination loop against a replayed service *)

Module ReplayFacts.

Import Py QueryClient Doubles.
Local Open Scope list_scope.

Lemma has_next_false response :
  has_next response = false ->
  negb (truthy_str (nextCursor (get_pagination response)))
  || negb (truthy_bool (hasMore (get_pagination response))) = true.
Proof.
  unfold has_next.
  now destruct (truthy_str _), (truthy_bool _).
Qed.

Lemma has_next_true response :
  has_next response = true ->
  negb (truthy_str (nextCursor (get_pagination response)))
  || negb (truthy_bool (hasMore (get_pagination response))) = false.
Proof.
  unfold has_next.
  now destruct (truthy_str _), (truthy_bool _).
Qed.

(** The loop, served responses that each announce a next page and then
    one that does not, within the pages still allowed: it yields all of
    them, the last one included, makes one request for each, leaves the
    rest of the replayed list unread, and ends without raising. *)
Lemma paginate_stops_at max_pages (good : list Response) :
  forall fuel page cursor log query stop rest,
    forallb has_next good = true ->
    has_next stop = false ->
    (List.length good < Z.to_nat (max_pages - page))%nat ->
    (List.length good < fuel)%nat ->
    exists r,
      paginate recording fuel max_pages page cursor
        (mk_recorder (map Returned good ++ Returned stop :: rest) log) query
      = Some r
      /\ pages r = good ++ [stop]
      /\ ending r = Returned tt
      /\ script (fst (final r)) = rest
      /\ List.length (requests (fst (final r)))
         = (List.length log + S (List.length good))%nat.
Proof.
  induction good as [|g good IH];
    intros fuel page cursor log query stop rest Hgood Hstop Hmax Hfuel;
    (destruct fuel as [|fuel]; [cbn in Hfuel; lia|]);
    cbn [paginate];
    (assert (Hlt : (page <? max_pages) = true) by (apply Z.ltb_lt; lia));
    rewrite Hlt; unfold recording at 1; cbn [script requests map app].
  - rewrite (has_next_false _ Hstop).
    eexists. split; [reflexivity|]. cbn. rewrite List.length_app. cbn.
    repeat split; lia.
  - cbn in Hgood. apply andb_prop in Hgood as [Hg Hgood].
    rewrite (has_next_true _ Hg).
    match goal with
    | |- context [paginate recording fuel max_pages ?pg ?cu
                    (mk_recorder _ ?lg) ?q] =>
        destruct (IH fuel pg cu lg q stop rest Hgood Hstop)
          as (r & -> & Hp & He & Hs & Hl)
    end.
    + cbn [List.length] in Hmax. lia.
    + cbn [List.length] in Hfuel. lia.
    + eexists. split; [reflexivity|]. cbn [yield pages ending final].
      rewrite Hp, He, Hs, Hl, List.length_app. cbn. repeat split; lia.
Qed.

Lemma execute_paginated_stops_at (good : list Response) (stop : Response)
  (rest : list (outcome Response)) (query : query_pb2.Query)
  (max_pages : Z) :
  forallb has_next good = true ->
  has_next stop = false ->
  (List.length good < Z.to_nat max_pages)%nat ->
  exists r,
    execute_paginated_ recording
      (mk_recorder (map Returned good ++ Returned stop :: rest) []) query
      max_pages = Some r
    /\ pages r = good ++ [stop]
    /\ ending r = Returned tt
    /\ script (fst (final r)) = rest
    /\ List.length (requests (fst (final r))) = S (List.length good).
Proof.
  intros Hgood Hstop Hmax. unfold execute_paginated_.
  apply (paginate_stops_at max_pages good (S (Z.to_nat max_pages)) 0 None
           [] query stop rest Hgood Hstop).
  - rewrite Z.sub_0_r. exact Hmax.
  - lia.
Qed.

End ReplayFacts.

(** ** The client: statements *)

Module ClientClaims.

Import Py QueryClient ClientFacts Doubles ReplayFacts.
Local Open Scope list_scope.

(** C7, as stated, fails: [explain_query] on a connected client changes
    the query it is given. The query built by [QueryBuilder("users")] has
    no options before the call and has [options.explain = True] after it
    (the call itself ends with [RuntimeError]). *)
Lemma explain_query_modifies_query :
  fst (QueryBuilder.build (QueryBuilder.__init__ "users"))
    = Returned Examples.users_query
  /\ snd (snd (explain_query Examples.connected Examples.users_query))
       <> Examples.users_query.
Proof.
  split; [reflexivity|]. cbv. discriminate.
Qed.

(** C7, amended. For every client made by the constructor and any
    sequence of [connect()] and [close()] calls, and every query:
    [execute_query] and [execute_paginated] leave the client and the
    query object as they were; [explain_query] leaves the client as it
    was and the query too when [options.explain] is already true, and
    otherwise sets [options.explain] to true (creating the options when
    absent) and changes no other field of the query and no other
    option. *)
Theorem client_query_frame (host tenant_id : string) (timeout : Z)
  (calls : list client_call) (query : query_pb2.Query) (max_pages : Z) :
  let self := after host tenant_id timeout calls in
  snd (execute_query self query) = (self, query)
  /\ (exists r, execute_paginated self query max_pages = Some r
                /\ final r = (self, query))
  /\ exists query',
       snd (explain_query self query) = (self, query')
       /\ (read_explain query = true /\ query' = query
           \/ read_explain query = false
              /\ exists o,
                   query' = query_pb2.set_options query (Some o)
                   /\ query_pb2.explain o = Some true
                   /\ match query_pb2.options query with
                      | Some o0 =>
                          query_pb2.timeout_ms o = query_pb2.timeout_ms o0
                          /\ query_pb2.count_total o = query_pb2.count_total o0
                          /\ query_pb2.consistency o = query_pb2.consistency o0
                      | None =>
                          query_pb2.timeout_ms o = None
                          /\ query_pb2.count_total o = None
                          /\ query_pb2.consistency o = None
                      end).
Proof.
  intros self. split; [|split].
  - apply execute_query_state.
  - destruct (execute_paginated_not_connected host tenant_id timeout calls
                query max_pages) as (r & Hr & _ & Hf).
    now exists r.
  - rewrite explain_query_state. eexists. split; [reflexivity|].
    destruct (read_explain query) eqn:E; [now left|right].
    split; [reflexivity|]. unfold assign_explain.
    eexists. split; [reflexivity|]. split; [reflexivity|].
    now destruct (query_pb2.options query).
Qed.

(** C8. For every implementation of [execute_query] (so for every
    sequence of responses and errors it may produce), every client, query
    and [max_pages]: [execute_paginated] ends, it yields at most
    [max_pages] pages, and a yielded page whose pagination has no true
    [hasMore] or no usable [nextCursor] is the last one. And against
    every replayed list of responses: when responses that each announce
    a next page are followed, before [max_pages] is reached, by a
    response without true [hasMore] or without usable [nextCursor],
    the run yields exactly these responses, that one last, makes exactly
    one request for each of them and none after it (what follows in the
    list is left unread, however large [max_pages] is), and ends
    without raising. *)
Theorem execute_paginated_terminates {C : Type}
  (exec : C -> query_pb2.Query -> outcome Response * (C * query_pb2.Query))
  (self : C) (query : query_pb2.Query) (max_pages : Z)
  (good : list Response) (stop : Response) (rest : list (outcome Response)) :
  (exists r,
      execute_paginated_ exec self query max_pages = Some r
      /\ (List.length (pages r) <= Z.to_nat max_pages)%nat
      /\ forall i resp,
           nth_error (pages r) i = Some resp ->
           truthy_bool (hasMore (get_pagination resp)) = false
           \/ truthy_str (nextCursor (get_pagination resp)) = false ->
           List.length (pages r) = S i /\ ending r = Returned tt)
  /\ (forallb has_next good = true ->
      truthy_bool (hasMore (get_pagination stop)) = false
      \/ truthy_str (nextCursor (get_pagination stop)) = false ->
      (List.length good < Z.to_nat max_pages)%nat ->
      exists r,
        execute_paginated_ recording
          (mk_recorder (map Returned good ++ Returned stop :: rest) [])
          query max_pages = Some r
        /\ pages r = good ++ [stop]
        /\ ending r = Returned tt
        /\ script (fst (final r)) = rest
        /\ List.length (requests (fst (final r))) = S (List.length good)).
Proof.
  split; [apply execute_paginated_sufficient|].
  intros Hgood Hstop Hmax.
  apply execute_paginated_stops_at; try assumption.
  unfold has_next. destruct Hstop as [-> | ->]; [apply andb_false_r|reflexivity].
Qed.

Lemma execute_paginated_terminates_witness :
  exists r,
    execute_paginated_ recording
      (mk_recorder
         (map Returned [Examples.more_with_cursor]
          ++ Returned Examples.more_without_cursor
             :: [Returned Examples.more_with_cursor]) [])
      Examples.users_query 1000 = Some r
    /\ pages r = [Examples.more_with_cursor] ++ [Examples.more_without_cursor]
    /\ ending r = Returned tt
    /\ script (fst (final r)) = [Returned Examples.more_with_cursor]
    /\ List.length (requests (fst (final r)))
       = S (List.length [Examples.more_with_cursor]).
Proof.
  apply (proj2 (execute_paginated_terminates replay
                  [Returned Examples.more_with_cursor]
                  Examples.users_query 1000
                  [Examples.more_with_cursor] Examples.more_without_cursor
                  [Returned Examples.more_with_cursor])).
  - reflexivity.
  - right. reflexivity.
  - vm_compute. lia.
Defined.

(** C9, as stated, fails: on a first response that claims more pages and
    carries no cursor, the generator yields that page and is then
    exhausted; nothing is raised. *)
Lemma more_without_cursor_stops_silently :
  exists r,
    execute_paginated_ replay
      [Returned Examples.more_without_cursor;
       Returned Examples.more_with_cursor]
      Examples.users_query 10 = Some r
    /\ pages r = [Examples.more_without_cursor]
    /\ ~ exists e, ending r = Raised e.
Proof.
  eexists. split; [reflexivity|]. split; [reflexivity|].
  intros [e H]. discriminate H.
Qed.

(** C9, amended. Against every replayed list of responses: when
    responses that each announce a next page are followed, before
    [max_pages] is reached, by a response that claims [hasMore] and
    carries no usable [nextCursor] (missing or empty),
    [execute_paginated] yields that response as its last page and is then
    exhausted without raising; it makes no request after the one that
    got this response and leaves what follows in the list unread. *)
Theorem missing_cursor_ends_iteration
  (good : list Response) (resp : Response) (rest : list (outcome Response))
  (query : query_pb2.Query) (max_pages : Z) :
  forallb has_next good = true ->
  hasMore (get_pagination resp) = Some true ->
  truthy_str (nextCursor (get_pagination resp)) = false ->
  (List.length good < Z.to_nat max_pages)%nat ->
  exists r,
    execute_paginated_ recording
      (mk_recorder (map Returned good ++ Returned resp :: rest) [])
      query max_pages = Some r
    /\ pages r = good ++ [resp]
    /\ ending r = Returned tt
    /\ script (fst (final r)) = rest
    /\ List.length (requests (fst (final r))) = S (List.length good).
Proof.
  intros Hgood _ Hcur Hmax.
  apply execute_paginated_stops_at; try assumption.
  unfold has_next. now rewrite Hcur.
Qed.

Lemma missing_cursor_ends_iteration_witness :
  exists r,
    execute_paginated_ recording
      (mk_recorder
         (map Returned [Examples.more_with_cursor]
          ++ Returned Examples.more_without_cursor
             :: [Returned Examples.more_with_cursor]) [])
      Examples.users_query 10 = Some r
    /\ pages r = [Examples.more_with_cursor] ++ [Examples.more_without_cursor]
    /\ ending r = Returned tt
    /\ script (fst (final r)) = [Returned Examples.more_with_cursor]
    /\ List.length (requests (fst (final r)))
       = S (List.length [Examples.more_with_cursor]).
Proof.
  apply (missing_cursor_ends_iteration
           [Examples.more_with_cursor] Examples.more_without_cursor
           [Returned Examples.more_with_cursor] Examples.users_query 10).
  - reflexivity.
  - reflexivity.
  - reflexivity.
  - vm_compute. lia.
Defined.

(** C10. For every client made by the constructor and any sequence of
    [connect()] and [close()] calls, and every query, [execute_query]
    raises [RuntimeError("Not connected. Call connect() first.")] and
    leaves the client and the query as they were: [_stub] is still
    [None], so no response is returned. *)
Theorem execute_query_not_connected (host tenant_id : string) (timeout : Z)
  (calls : list client_call) (query : query_pb2.Query) :
  execute_query (after host tenant_id timeout calls) query =
    (Raised (RuntimeError "Not connected. Call connect() first."),
     (after host tenant_id timeout calls, query)).
Proof.
  unfold execute_query. now rewrite stub_after.
Qed.

End ClientClaims.

(** ** Value coercion *)

Module CoercionFacts.

Import Iso8601.

Lemma append_assoc (a b c : string) : (a ++ b) ++ c = a ++ b ++ c.
Proof. induction a as [|x a IH]; cbn; [reflexivity|now rewrite IH]. Qed.

Lemma is_digit_digit (n : N) : is_digit (Py.digit n) = true.
Proof.
  unfold Py.digit.
  pose proof (N.mod_upper_bound n 10) as H.
  set (m := (n mod 10)%N) in *.
  assert (Hm : (m = 0 \/ m = 1 \/ m = 2 \/ m = 3 \/ m = 4 \/ m = 5 \/ m = 6
                \/ m = 7 \/ m = 8 \/ m = 9)%N) by lia.
  clearbody m.
  repeat (destruct Hm as [->|Hm]; [reflexivity|]). now subst.
Qed.

Lemma fixed_digits_shape (w : nat) :
  forall n acc,
    String.length (Py.fixed_digits w n acc) = (w + String.length acc)%nat
    /\ digits_only (Py.fixed_digits w n acc) = digits_only acc.
Proof.
  induction w as [|w IH]; intros n acc; [now split|].
  cbn [Py.fixed_digits].
  destruct (IH (n / 10)%N (String (Py.digit n) acc)) as [-> ->].
  cbn. rewrite is_digit_digit. split; [lia|reflexivity].
Qed.

Lemma more_digits_zero fuel acc : Py.more_digits fuel 0 acc = acc.
Proof. now destruct fuel. Qed.

(** Below [10 ^ w], ["%0wd"] prints exactly [w] digits. *)
Lemma zfill_shape (w : nat) (n : N) :
  (n < 10 ^ N.of_nat w)%N ->
  String.length (Py.zfill w n) = w /\ digits_only (Py.zfill w n) = true.
Proof.
  intros H. unfold Py.zfill.
  rewrite N.div_small by exact H. rewrite more_digits_zero.
  destruct (fixed_digits_shape w n "") as [-> ->]. cbn. split; [lia|reflexivity].
Qed.

Lemma take_digits_app (n : nat) (s rest : string) :
  digits_only s = true -> String.length s = n ->
  take_digits n (s ++ rest) = Some rest.
Proof.
  intros H <-. induction s as [|c s IH]; cbn; [reflexivity|].
  cbn in H. apply andb_prop in H as [-> Hs]. now apply IH.
Qed.

Lemma take_char_app (c : ascii) (rest : string) :
  take_char c (String c "" ++ rest) = Some rest.
Proof. cbn. now rewrite Ascii.eqb_refl. Qed.

Lemma skip_digits_app (s : string) (c : ascii) (rest : string) :
  digits_only s = true -> is_digit c = false ->
  skip_digits (s ++ String c rest) = String c rest.
Proof.
  intros Hs Hc. induction s as [|x s IH]; cbn.
  - now rewrite Hc.
  - cbn in Hs. apply andb_prop in Hs as [-> Hs]. now apply IH.
Qed.

(** The text up to the seconds is always accepted; what decides is what
    follows them. *)
Lemma timestamp_after_seconds (y m d hh mm ss rest : string) :
  digits_only y = true -> String.length y = 4%nat ->
  digits_only m = true -> String.length m = 2%nat ->
  digits_only d = true -> String.length d = 2%nat ->
  digits_only hh = true -> String.length hh = 2%nat ->
  digits_only mm = true -> String.length mm = 2%nat ->
  digits_only ss = true -> String.length ss = 2%nat ->
  is_utc_timestamp
    (y ++ "-" ++ m ++ "-" ++ d ++ "T" ++ hh ++ ":" ++ mm ++ ":" ++ ss ++ rest)
  = match and_then (take_fraction rest) (take_char "Z") with
    | Some EmptyString => true
    | _ => false
    end.
Proof.
  intros Hy Ly Hm Lm Hd Ld Hhh Lhh Hmm Lmm Hss Lss.
  unfold is_utc_timestamp.
  rewrite (take_digits_app _ y _ Hy Ly). cbn [and_then].
  rewrite take_char_app. cbn [and_then].
  rewrite (take_digits_app _ m _ Hm Lm). cbn [and_then].
  rewrite take_char_app. cbn [and_then].
  rewrite (take_digits_app _ d _ Hd Ld). cbn [and_then].
  rewrite take_char_app. cbn [and_then].
  rewrite (take_digits_app _ hh _ Hhh Lhh). cbn [and_then].
  rewrite take_char_app. cbn [and_then].
  rewrite (take_digits_app _ mm _ Hmm Lmm). cbn [and_then].
  rewrite take_char_app. cbn [and_then].
  rewrite (take_digits_app _ ss _ Hss Lss). cbn [and_then].
  reflexivity.
Qed.

Lemma in_range_bounds (d : Py.datetime) :
  Py.in_range d = true ->
  (Py.year d < 10 ^ N.of_nat 4 /\ Py.month d < 10 ^ N.of_nat 2
   /\ Py.day d < 10 ^ N.of_nat 2 /\ Py.hour d < 10 ^ N.of_nat 2
   /\ Py.minute d < 10 ^ N.of_nat 2 /\ Py.second d < 10 ^ N.of_nat 2
   /\ Py.microsecond d < 10 ^ N.of_nat 6)%N.
Proof.
  unfold Py.in_range. intros H.
  repeat (apply andb_prop in H as [H ?]).
  repeat match goal with
         | H : (_ <=? _)%N = true |- _ => apply N.leb_le in H
         end.
  cbn. lia.
Qed.

Lemma isoformat_parts (d : Py.datetime) :
  Py.isoformat d =
    Py.zfill 4 (Py.year d) ++ "-" ++ Py.zfill 2 (Py.month d) ++ "-"
    ++ Py.zfill 2 (Py.day d) ++ "T" ++ Py.zfill 2 (Py.hour d) ++ ":"
    ++ Py.zfill 2 (Py.minute d) ++ ":" ++ Py.zfill 2 (Py.second d)
    ++ Py.fraction (Py.microsecond d) ++ Py._format_offset (Py.utcoffset d).
Proof.
  unfold Py.isoformat, Py._format_time, Py.fraction.
  destruct (Py.microsecond d =? 0)%N; now rewrite !append_assoc.
Qed.

Lemma after_fraction (us : N) (c : ascii) (rest : string) :
  (us < 10 ^ N.of_nat 6)%N -> is_digit c = false -> c <> "."%char ->
  take_fraction (Py.fraction us ++ String c rest) = Some (String c rest).
Proof.
  intros Hus Hc Hdot. unfold Py.fraction.
  destruct (us =? 0)%N.
  - cbn. destruct c as [[] [] [] [] [] [] [] []]; try reflexivity.
    now contradiction Hdot.
  - destruct (zfill_shape 6 us Hus) as [Hlen Hdig].
    destruct (Py.zfill 6 us) as [|x u]; [discriminate Hlen|].
    cbn in Hdig. apply andb_prop in Hdig as [Hx Hu].
    cbn. rewrite Hx. cbn. now rewrite skip_digits_app.
Qed.

Lemma format_offset_sign (off : Py.timedelta) :
  exists c rest,
    Py._format_offset (Some off) = String c rest
    /\ (c = "+"%char \/ c = "-"%char).
Proof.
  unfold Py._format_offset.
  destruct (off <? 0)%Z;
    repeat match goal with
           | |- context [if ?b then _ else _] => destruct b
           end;
    cbn; eexists; eexists; (split; [reflexivity|]); auto.
Qed.

(** For a datetime with fields in range, the coerced text is an ISO-8601
    UTC timestamp exactly when the datetime is naive. *)
Lemma coerced_datetime_is_utc (d : Py.datetime) :
  Py.in_range d = true ->
  is_utc_timestamp (Py.isoformat d ++ "Z") = negb (Py.is_some (Py.utcoffset d)).
Proof.
  intros Hr.
  destruct (in_range_bounds d Hr) as (Hy & Hm & Hd & Hhh & Hmm & Hss & Hus).
  rewrite isoformat_parts, !append_assoc.
  destruct (zfill_shape 4 _ Hy), (zfill_shape 2 _ Hm), (zfill_shape 2 _ Hd),
    (zfill_shape 2 _ Hhh), (zfill_shape 2 _ Hmm), (zfill_shape 2 _ Hss).
  rewrite timestamp_after_seconds by assumption.
  destruct (Py.utcoffset d) as [off|]; cbn [Py.is_some negb].
  - destruct (format_offset_sign off) as (c & rest & -> & Hc).
    change (String c rest ++ "Z") with (String c (rest ++ "Z")).
    rewrite after_fraction; [| exact Hus | | ]; 
      destruct Hc as [-> | ->]; try reflexivity; discriminate.
  - change (Py._format_offset None ++ "Z") with "Z".
    rewrite after_fraction; [reflexivity | exact Hus | reflexivity | discriminate].
Qed.

End CoercionFacts.

Module CoercionClaims.

Import struct_pb2 QueryBuilder.

(** The variant chosen for each kind of input. *)
Lemma to_proto_value_variants :
  (forall b, _to_proto_value (Py.PyBool b) = bool_value b)
  /\ (forall n, _to_proto_value (Py.PyInt n) = number_value (of_int n))
  /\ (forall f, _to_proto_value (Py.PyFloat f) = number_value (of_float f))
  /\ (forall s, _to_proto_value (Py.PyStr s) = string_value s)
  /\ _to_proto_value Py.PyNone = null_value
  /\ (forall s, _to_proto_value (Py.PyObject s) = string_value s)
  /\ (forall d, exists s,
        _to_proto_value (Py.PyDatetime d) = string_value (s ++ "Z")).
Proof.
  repeat split; intros; try reflexivity. eexists. reflexivity.
Qed.

(** C2 fails on a datetime that carries a time zone. For
    [datetime(2024, 1, 15, 10, 30, tzinfo=timezone(timedelta(hours=5,
    minutes=30)))] the coercion gives the text
    ["2024-01-15T10:30:00+05:30Z"]: an offset followed by the UTC
    designator, which is not an ISO-8601 UTC timestamp. The same
    wall-clock time without a time zone gives a well-formed one. *)
Theorem to_proto_value_aware_datetime :
  _to_proto_value (Py.PyDatetime Examples.aware_datetime)
    = string_value "2024-01-15T10:30:00+05:30Z"
  /\ Iso8601.is_utc_timestamp "2024-01-15T10:30:00+05:30Z" = false
  /\ _to_proto_value (Py.PyDatetime Examples.naive_datetime)
       = string_value "2024-01-15T10:30:00Z"
  /\ Iso8601.is_utc_timestamp "2024-01-15T10:30:00Z" = true.
Proof. repeat split; vm_compute; reflexivity. Qed.

End CoercionClaims.

(** ** Further properties of the builder *)

Module BuilderExtras.

Import QueryBuilder Calls Shapes BuilderFacts.
Local Open Scope list_scope.

Lemma sorts_invoke b c : _sorts (invoke b c) = _sorts b ++ sorts_of c.
Proof.
  destruct c; cbn; try reflexivity; now rewrite app_nil_r.
Qed.

Lemma sorts_chain entity calls :
  _sorts (chain entity calls) = flat_map sorts_of calls.
Proof.
  induction calls as [|c calls IH] using rev_ind.
  - reflexivity.
  - rewrite chain_last, sorts_invoke, IH, flat_map_app. cbn.
    now rewrite app_nil_r.
Qed.

Lemma sorts_of_length c :
  List.length (sorts_of c) = if is_sort c then 1%nat else 0%nat.
Proof. destruct c; reflexivity. Qed.

(** X1. For every entity and every sequence of builder calls, the sort
    list of the built query holds the sorts of the [sort_asc] and
    [sort_desc] calls, one per call, in call order: nothing is dropped,
    merged or reordered. *)
Theorem build_sorts_verbatim (entity : string) (calls : list call) :
  exists q,
    fst (build (chain entity calls)) = Py.Returned q
    /\ query_pb2.sort q = flat_map sorts_of calls
    /\ List.length (query_pb2.sort q) = List.length (List.filter is_sort calls).
Proof.
  destruct (build_fields (chain entity calls)) as (q & Hb & _ & _ & Hs & _).
  exists q. rewrite Hb. split; [reflexivity|].
  rewrite Hs, sorts_chain. split; [reflexivity|].
  clear. induction calls as [|c calls IH]; [reflexivity|].
  cbn [flat_map List.filter]. rewrite List.length_app, sorts_of_length, IH.
  destruct (is_sort c); reflexivity.
Qed.

(** X2. A [nulls] argument other than ["first"] and ["last"] is ignored
    without error: the sort is added as with ["default"], with no null
    ordering assigned. The comparison is exact, so ["FIRST"] is ignored
    too. *)
Theorem add_sort_ignores_unknown_nulls (b : builder) (field : string)
  (direction : sort_pb2.SortDirection) (nulls : string) :
  nulls <> "first" -> nulls <> "last" ->
  _add_sort b field direction nulls = _add_sort b field direction "default"
  /\ exists s, _sorts (_add_sort b field direction nulls) = _sorts b ++ [s]
               /\ sort_pb2.nulls s = None.
Proof.
  intros H1 H2. unfold _add_sort.
  apply String.eqb_neq in H1, H2. rewrite H1, H2. cbn.
  split; [reflexivity|]. eexists. split; reflexivity.
Qed.

Lemma add_sort_ignores_unknown_nulls_witness :
  _add_sort (__init__ "users") "created_at" sort_pb2.SORT_DIRECTION_DESC
    "FIRST"
  = _add_sort (__init__ "users") "created_at" sort_pb2.SORT_DIRECTION_DESC
      "default"
  /\ exists s,
       _sorts (_add_sort (__init__ "users") "created_at"
                 sort_pb2.SORT_DIRECTION_DESC "FIRST")
       = _sorts (__init__ "users") ++ [s]
       /\ sort_pb2.nulls s = None.
Proof.
  apply (add_sort_ignores_unknown_nulls (__init__ "users") "created_at"
           sort_pb2.SORT_DIRECTION_DESC "FIRST"); discriminate.
Defined.

(** X3. [consistency] never rejects a level: every string other than
    ["eventual"] and ["linearizable"] sets the level that ["strong"]
    sets. *)
Theorem consistency_falls_back_to_strong (b : builder) (level : string) :
  level <> "eventual" -> level <> "linearizable" ->
  consistency b level = consistency b "strong".
Proof.
  intros H1 H2. unfold consistency, level_map_get.
  apply String.eqb_neq in H1, H2. rewrite H1, H2.
  now destruct (String.eqb level "strong").
Qed.

Lemma consistency_falls_back_to_strong_witness :
  consistency (__init__ "users") "STRONG"
  = consistency (__init__ "users") "strong".
Proof.
  apply (consistency_falls_back_to_strong (__init__ "users") "STRONG");
    discriminate.
Defined.

(** X4. Two calls that work on different attributes of the builder
    (filters, sorts, projection, pagination, aggregation, search,
    options) can be swapped: the builder after them is the same. *)
Theorem calls_on_different_attributes_commute (b : builder) (c1 c2 : call) :
  touches c1 <> touches c2 ->
  invoke (invoke b c1) c2 = invoke (invoke b c2) c1.
Proof.
  intros H. destruct c1, c2; try reflexivity; now contradiction H.
Qed.

Lemma calls_on_different_attributes_commute_witness :
  invoke (invoke (__init__ "users") (Limit 20))
    (Filter_eq "status" (Py.PyStr "active"))
  = invoke (invoke (__init__ "users") (Filter_eq "status" (Py.PyStr "active")))
      (Limit 20).
Proof.
  apply (calls_on_different_attributes_commute (__init__ "users") (Limit 20)
           (Filter_eq "status" (Py.PyStr "active"))).
  discriminate.
Defined.

(** *** What a call sequence can leave in the builder *)

Lemma filters_of_ok c : forallb leaf_ok (filters_of c) = true.
Proof. destruct c; reflexivity. Qed.

Lemma or_str_not_empty (x : option string) (d : string) :
  is_empty d = false -> is_empty (Py.or_str x d) = false.
Proof. intros H. now destruct x as [[|]|]. Qed.

Lemma add_aggregate_ok function field alias :
  match function with
  | aggregation_pb2.AGGREGATE_FUNCTION_COUNT => field = None
  | aggregation_pb2.AGGREGATE_FUNCTION_SUM
  | aggregation_pb2.AGGREGATE_FUNCTION_AVG
  | aggregation_pb2.AGGREGATE_FUNCTION_MIN
  | aggregation_pb2.AGGREGATE_FUNCTION_MAX => True
  | _ => False
  end ->
  forallb aggregate_ok
    match _aggregation (_add_aggregate (__init__ "") function field alias) with
    | Some a => aggregation_pb2.aggregates a
    | None => []
    end = true.
Proof.
  intros H. cbn. unfold aggregate_ok.
  assert (Ha : is_empty (Py.or_str alias "result") = false)
    by now apply or_str_not_empty.
  destruct function; try contradiction; try subst field;
    try destruct field as [[|]|]; cbn; now rewrite Ha.
Qed.

Lemma aggregates_of_ok c : forallb aggregate_ok (aggregates_of c) = true.
Proof.
  unfold aggregates_of.
  destruct c; try reflexivity; cbn [invoke]; unfold count, sum, avg, min, max;
    apply add_aggregate_ok; first [reflexivity | exact I].
Qed.

Lemma builder_ok_init entity : builder_ok (__init__ entity) = true.
Proof. reflexivity. Qed.

Lemma builder_ok_parts b :
  builder_ok b = true ->
  forallb leaf_ok (_filters b) = true
  /\ aggregation_ok (_aggregation b) = true
  /\ projection_ok (_projection b) = true
  /\ search_ok (_search b) = true
  /\ _relations b = [].
Proof.
  unfold builder_ok. intros H.
  apply andb_prop in H as [H Hrl]. apply andb_prop in H as [H Hse].
  apply andb_prop in H as [H Hpr]. apply andb_prop in H as [Hf Hag].
  repeat split; try assumption. now destruct (_relations b).
Qed.

Lemma builder_ok_invoke b c :
  builder_ok b = true -> builder_ok (invoke b c) = true.
Proof.
  intros H.
  destruct (builder_ok_parts b H) as (Hf & Hag & Hpr & Hse & Hrl).
  unfold builder_ok.
  rewrite filters_invoke, forallb_app, Hf, filters_of_ok.
  rewrite aggregation_invoke, projection_invoke, search_invoke.
  assert (Hr : _relations (invoke b c) = _relations b) by now destruct c.
  rewrite Hr, Hrl.
  repeat (apply andb_true_intro; split); try reflexivity.
  - destruct (is_aggregation c) eqn:E; [|assumption].
    cbn [aggregation_ok aggregation_pb2.aggregates aggregation_pb2.having].
    rewrite forallb_app, aggregates_of_ok, andb_true_r.
    destruct (_aggregation b) as [a|]; [exact Hag|reflexivity].
  - destruct c; try assumption; cbn; now rewrite ?orb_true_r.
  - destruct c; try assumption; reflexivity.
Qed.

Lemma builder_ok_chain entity calls : builder_ok (chain entity calls) = true.
Proof.
  induction calls as [|c calls IH] using rev_ind.
  - apply builder_ok_init.
  - rewrite chain_last. now apply builder_ok_invoke.
Qed.

(** X5. For every entity and every sequence of builder calls, the
    filter of the built query is absent, or one leaf condition, or one
    conjunction of at least two leaf conditions; no disjunction, negation
    or nested composite is ever built. Every leaf has the operands its
    operator takes (a list for IN and NOT_IN, none for the null tests,
    one value otherwise) and carries a case-sensitivity flag exactly when
    it is a CONTAINS condition. *)
Theorem build_filter_shape (entity : string) (calls : list call) :
  exists q,
    fst (build (chain entity calls)) = Py.Returned q
    /\ filter_ok (query_pb2.filter q) = true.
Proof.
  destruct (build_fields (chain entity calls)) as (q & Hb & _ & Hf & _).
  exists q. rewrite Hb. split; [reflexivity|]. rewrite Hf.
  destruct (builder_ok_parts _ (builder_ok_chain entity calls)) as (H & _).
  destruct (_filters (chain entity calls)) as [|f [|f' fs]] eqn:E.
  - reflexivity.
  - cbn in H. rewrite andb_true_r in H. cbn. now destruct f.
  - cbn [filter_ok]. now rewrite H.
Qed.

(** X6. For every entity and every sequence of builder calls, every
    aggregate of the built query has a non-empty alias, one of the five
    functions COUNT, SUM, AVG, MIN, MAX, no percentile, a non-empty field
    or none (always none for COUNT), and the aggregation has no HAVING
    filter; there is one aggregate per aggregate call (equal aliases are
    not merged or rejected). *)
Theorem build_aggregation_shape (entity : string) (calls : list call) :
  exists q,
    fst (build (chain entity calls)) = Py.Returned q
    /\ aggregation_ok (query_pb2.aggregation q) = true
    /\ match query_pb2.aggregation q with
       | Some a =>
           List.length (aggregation_pb2.aggregates a)
           = List.length (List.filter is_aggregate calls)
       | None => List.filter is_aggregate calls = []
       end.
Proof.
  destruct (build_fields (chain entity calls))
    as (q & Hb & _ & _ & _ & _ & _ & Hag & _).
  exists q. rewrite Hb. split; [reflexivity|]. rewrite Hag. split.
  - now destruct (builder_ok_parts _ (builder_ok_chain entity calls))
      as (_ & H & _).
  - rewrite aggregation_chain. unfold accumulated_aggregation.
    assert (Hlen : List.length (flat_map aggregates_of calls)
                   = List.length (List.filter is_aggregate calls)).
    { clear. induction calls as [|c calls IH]; [reflexivity|].
      cbn [flat_map List.filter]. rewrite List.length_app, IH.
      destruct c; reflexivity. }
    destruct (existsb is_aggregation calls) eqn:E; [exact Hlen|].
    clear - E. induction calls as [|c calls IH]; [reflexivity|].
    cbn in E. apply orb_false_elim in E as [Ec Ecalls].
    cbn. rewrite (IH Ecalls). destruct c; try discriminate Ec; reflexivity.
Qed.

(** X7. For every entity and every sequence of builder calls, the
    projection of the built query never has both included and excluded
    fields: [include] and [exclude] replace each other. *)
Theorem build_projection_exclusive (entity : string) (calls : list call) :
  exists q,
    fst (build (chain entity calls)) = Py.Returned q
    /\ match query_pb2.projection q with
       | Some p => query_pb2.include p = [] \/ query_pb2.exclude p = []
       | None => True
       end.
Proof.
  destruct (build_fields (chain entity calls))
    as (q & Hb & _ & _ & _ & Hpr & _).
  exists q. rewrite Hb. split; [reflexivity|]. rewrite Hpr.
  destruct (builder_ok_parts _ (builder_ok_chain entity calls))
    as (_ & _ & H & _).
  destruct (_projection (chain entity calls)) as [p|]; [|exact I].
  cbn in H.
  destruct (query_pb2.include p); [now left|].
  destruct (query_pb2.exclude p); [now right|discriminate].
Qed.

(** X8. For every entity and every sequence of builder calls, the
    search of the built query is absent, or a full-text search without
    vector field and embedding, or a semantic search with a vector field
    and without text fields; it is never a hybrid search and never has
    boosts. *)
Theorem build_search_shape (entity : string) (calls : list call) :
  exists q,
    fst (build (chain entity calls)) = Py.Returned q
    /\ search_ok (query_pb2.search q) = true.
Proof.
  destruct (build_fields (chain entity calls))
    as (q & Hb & _ & _ & _ & _ & _ & _ & Hse & _).
  exists q. rewrite Hb. split; [reflexivity|]. rewrite Hse.
  now destruct (builder_ok_parts _ (builder_ok_chain entity calls))
    as (_ & _ & _ & H & _).
Qed.

(** X9. No builder call changes the entity: the built query has the
    entity name the builder was made with. *)
Theorem build_keeps_entity (entity : string) (calls : list call) :
  exists q,
    fst (build (chain entity calls)) = Py.Returned q
    /\ query_pb2.entity q = entity.
Proof.
  destruct (build_fields (chain entity calls)) as (q & Hb & He & _).
  exists q. rewrite Hb. split; [reflexivity|]. rewrite He. clear.
  induction calls as [|c calls IH] using rev_ind; [reflexivity|].
  rewrite chain_last. now destruct c.
Qed.

(** X10. Setters of different fields of the pagination message
    ([limit], [cursor], [offset]) and of the options message ([timeout],
    [explain], [count_total], [consistency]) commute, and a repeated
    setter keeps the last argument only. *)
Theorem field_setters_compose (b : builder) :
  (forall n c, limit (cursor b c) n = cursor (limit b n) c)
  /\ (forall n o, limit (offset b o) n = offset (limit b n) o)
  /\ (forall c o, cursor (offset b o) c = offset (cursor b c) o)
  /\ (forall n m, limit (limit b n) m = limit b m)
  /\ (forall c c', cursor (cursor b c) c' = cursor b c')
  /\ (forall o o', offset (offset b o) o' = offset b o')
  /\ (forall ms e, timeout (explain b e) ms = explain (timeout b ms) e)
  /\ (forall ms e, timeout (count_total b e) ms = count_total (timeout b ms) e)
  /\ (forall ms l, timeout (consistency b l) ms = consistency (timeout b ms) l)
  /\ (forall e e', explain (count_total b e') e = count_total (explain b e) e')
  /\ (forall e l, explain (consistency b l) e = consistency (explain b e) l)
  /\ (forall e l,
        count_total (consistency b l) e = consistency (count_total b e) l)
  /\ (forall ms ms', timeout (timeout b ms) ms' = timeout b ms')
  /\ (forall e e', explain (explain b e) e' = explain b e')
  /\ (forall e e', count_total (count_total b e) e' = count_total b e')
  /\ (forall l l', consistency (consistency b l) l' = consistency b l').
Proof.
  repeat split; intros;
    unfold limit, cursor, offset, timeout, explain, count_total, consistency;
    cbn; destruct (_pagination b), (_options b); reflexivity.
Qed.

End BuilderExtras.

(** ** Further properties of the client and of the runner *)

Module ClientExtras.

Import Py QueryClient Doubles ClientFacts.
Local Open Scope list_scope.

Lemma after_last host tenant_id timeout calls c :
  after host tenant_id timeout (calls ++ [c])
  = client_invoke (after host tenant_id timeout calls) c.
Proof. unfold after. now rewrite fold_left_app. Qed.

Lemma ends_with_close_last calls c :
  ends_with_close (calls ++ [c]) = negb (is_connect c).
Proof. unfold ends_with_close. rewrite rev_app_distr. now destruct c. Qed.

(** X12. After the constructor and any sequence of [connect()] and
    [close()] calls, host, tenant and timeout are as given; there is a
    channel exactly when [connect()] was called at least once, it is a
    channel to the host, and it is closed exactly when the last call was
    [close()]. In particular [close()] before any [connect()] does
    nothing, and closing twice is closing once. *)
Theorem client_lifecycle (host_ tenant_id_ : string) (timeout_ : Z)
  (calls : list client_call) :
  host (after host_ tenant_id_ timeout_ calls) = host_
  /\ tenant_id (after host_ tenant_id_ timeout_ calls) = tenant_id_
  /\ timeout (after host_ tenant_id_ timeout_ calls) = timeout_
  /\ _channel (after host_ tenant_id_ timeout_ calls) =
       if existsb is_connect calls
       then Some (mk_Channel host_ (ends_with_close calls))
       else None.
Proof.
  induction calls as [|c calls IH] using rev_ind.
  - now repeat split.
  - destruct IH as (Hh & Ht & Hto & Hch).
    rewrite after_last, existsb_app, ends_with_close_last.
    cbn [existsb]. rewrite orb_false_r.
    destruct c; cbn [client_invoke is_connect negb].
    + unfold connect. cbn. rewrite Hh, orb_true_r. now repeat split.
    + unfold close. rewrite Hch, orb_false_r.
      destruct (existsb is_connect calls); cbn; now repeat split.
Qed.


Lemma read_explain_assign query : read_explain (assign_explain query) = true.
Proof. reflexivity. Qed.

(** X14. Against any replayed service, [explain_query] sends exactly
    one request; the query sent has [options.explain] true and differs
    from the query given in its options at most. It returns the explain
    block of the response, an empty dict when the response has none, and
    raises what the request raised. *)
Theorem explain_query_sends_one_request (script_ : list (outcome Response))
  (log : list query_pb2.Query) (query : query_pb2.Query) :
  exists out query',
    explain_query_ recording (mk_recorder script_ log) query
      = (out, (mk_recorder (tl script_) (log ++ [query']), query'))
    /\ read_explain query' = true
    /\ query_pb2.set_options query' (query_pb2.options query) = query
    /\ out = match script_ with
             | Returned response :: _ =>
                 Returned match explain response with
                          | Some e => e
                          | None => []
                          end
             | Raised e :: _ => Raised e
             | [] => Raised (RpcError "UNAVAILABLE" "")
             end.
Proof.
  unfold explain_query_, recording. cbn [script requests].
  set (query' := if negb (read_explain query) then assign_explain query
                 else query).
  assert (H1 : read_explain query' = true).
  { subst query'. destruct (read_explain query) eqn:E; [exact E|reflexivity]. }
  assert (H2 : query_pb2.set_options query' (query_pb2.options query) = query).
  { subst query'. destruct (read_explain query); now destruct query. }
  destruct script_ as [|[response|e] rest]; cbn [tl].
  - now exists (Raised (RpcError "UNAVAILABLE" "")), query'.
  - destruct (explain response) as [d|] eqn:E.
    + now exists (Returned d), query'.
    + now exists (Returned []), query'.
  - now exists (Raised e), query'.
Qed.

(** The query a loop iteration sends, given the cursor it was entered
    with. *)
Lemma paginate_requests fuel max_pages :
  forall page cursor rec query r,
    paginate recording fuel max_pages page cursor rec query = Some r ->
    requests (fst (final r)) =
      requests rec ++
      firstn (List.length (pages r)
              + match ending r with Raised _ => 1 | Returned _ => 0 end)
        (threaded
           match cursor with
           | Some c => if truthy_str cursor then assign_cursor query c
                       else query
           | None => query
           end (pages r)).
Proof.
  induction fuel as [|fuel IH]; intros page cursor rec query r H;
    [discriminate H|].
  cbn [paginate] in H.
  destruct (page <? max_pages).
  2:{ injection H as <-. cbn. now rewrite app_nil_r. }
  set (query1 := match cursor with
                 | Some c =>
                     if truthy_str cursor then assign_cursor query c else query
                 | None => query
                 end) in *.
  unfold recording in H at 1.
  destruct (script rec) as [|[response|e] rest] eqn:Es; cbn [requests] in H.
  - injection H as <-. reflexivity.
  - destruct (negb (truthy_str (nextCursor (get_pagination response)))
              || negb (truthy_bool (hasMore (get_pagination response))))
      eqn:Hstop.
    + injection H as <-. reflexivity.
    + destruct (paginate recording fuel max_pages (page + 1) _ _ query1)
        as [r'|] eqn:Hr; [|discriminate H].
      injection H as <-.
      apply IH in Hr. cbn [yield final pages ending fst requests] in *.
      rewrite Hr, <- app_assoc. cbn [app plus firstn threaded]. 
      apply orb_false_elim in Hstop as [Hc _].
      apply negb_false_iff in Hc.
      unfold cursor_of.
      destruct (nextCursor (get_pagination response)) as [[|a c]|];
        try discriminate Hc.
      reflexivity.
  - injection H as <-. reflexivity.
Qed.

Lemma threaded_length query pages_ :
  List.length (threaded query pages_) = S (List.length pages_).
Proof.
  revert query. induction pages_ as [|p pages_ IH]; intros query;
    [reflexivity|].
  cbn [threaded List.length]. now rewrite IH.
Qed.

(** Every iteration sends one request, and an iteration that raises is
    the last one. *)
Lemma paginate_attempts {C : Type}
  (exec : C -> query_pb2.Query -> outcome Response * (C * query_pb2.Query))
  fuel max_pages :
  forall page cursor self query r,
    paginate exec fuel max_pages page cursor self query = Some r ->
    (List.length (pages r)
     + match ending r with Raised _ => 1 | Returned _ => 0 end
     <= Z.to_nat (max_pages - page))%nat.
Proof.
  induction fuel as [|fuel IH]; intros page cursor self query r H;
    [discriminate H|].
  cbn [paginate] in H.
  destruct (page <? max_pages) eqn:Hlt.
  2:{ injection H as <-. cbn. lia. }
  apply Z.ltb_lt in Hlt.
  match type of H with
  | context [exec self ?q] =>
      destruct (exec self q) as [[response|e] [self' query']]
  end.
  - destruct (negb (truthy_str (nextCursor (get_pagination response)))
              || negb (truthy_bool (hasMore (get_pagination response)))).
    + injection H as <-. cbn. lia.
    + destruct (paginate exec fuel max_pages (page + 1) _ self' query')
        as [r'|] eqn:Hr; [|discriminate H].
      injection H as <-. apply IH in Hr. cbn [yield pages ending List.length].
      lia.
  - injection H as <-. cbn. lia.
Qed.

(** X15. Against any replayed service, [execute_paginated] sends the
    query as given first, and then, for each further request, the
    previous request with the [nextCursor] of the previous response
    assigned unchanged. It sends one request per yielded page, one more
    when it ends by an error, and never more than [max_pages]. *)
Theorem execute_paginated_threads_cursor (script_ : list (outcome Response))
  (query : query_pb2.Query) (max_pages : Z) :
  exists r,
    execute_paginated_ recording (mk_recorder script_ []) query max_pages
      = Some r
    /\ requests (fst (final r)) =
         firstn (List.length (requests (fst (final r))))
           (threaded query (pages r))
    /\ List.length (requests (fst (final r))) =
         (List.length (pages r)
          + match ending r with Raised _ => 1 | Returned _ => 0 end)%nat
    /\ (List.length (requests (fst (final r))) <= Z.to_nat max_pages)%nat.
Proof.
  destruct (execute_paginated_sufficient recording (mk_recorder script_ [])
              query max_pages) as (r & Hr & _).
  exists r. split; [exact Hr|].
  unfold execute_paginated_ in Hr.
  pose proof (paginate_requests _ _ _ _ _ _ _ Hr) as Hreq.
  pose proof (paginate_attempts _ _ _ _ _ _ _ _ Hr) as Hle.
  cbn [requests app] in Hreq. rewrite Z.sub_0_r in Hle.
  assert (Hlen : List.length (requests (fst (final r))) =
                 (List.length (pages r)
                  + match ending r with Raised _ => 1 | Returned _ => 0 end)%nat).
  { rewrite Hreq, List.length_firstn, threaded_length.
    destruct (ending r); lia. }
  split; [|split].
  - now rewrite Hlen.
  - exact Hlen.
  - lia.
Qed.

(** X16. Whatever [execute_query] does, as long as it leaves the query
    object alone, [execute_paginated] changes nothing in the query but
    [pagination.cursor]. *)
Theorem execute_paginated_changes_cursor_only {C : Type}
  (exec : C -> query_pb2.Query -> outcome Response * (C * query_pb2.Query))
  (self : C) (query : query_pb2.Query) (max_pages : Z) (r : run) :
  (forall s q, snd (snd (exec s q)) = q) ->
  execute_paginated_ exec self query max_pages = Some r ->
  same_but_cursor query (snd (final r)).
Proof.
  intros Hexec Hr. unfold execute_paginated_ in Hr.
  exact (paginate_frame exec _ _ Hexec _ _ _ _ _ Hr).
Qed.

Lemma execute_paginated_changes_cursor_only_witness :
  same_but_cursor Examples.users_query
    (snd (final (mk_run
                   [Examples.more_with_cursor; Examples.more_without_cursor]
                   (Returned tt)
                   (@nil (outcome Response),
                    assign_cursor Examples.users_query "c1")))).
Proof.
  apply (execute_paginated_changes_cursor_only replay
           [Returned Examples.more_with_cursor;
            Returned Examples.more_without_cursor]
           Examples.users_query 10).
  - intros s q. now destruct s.
  - reflexivity.
Defined.

Section Exhaustive.

Context {C : Type}.
Variable exec :
  C -> query_pb2.Query -> outcome Response * (C * query_pb2.Query).
Hypothesis always_more :
  forall s q, exists response st,
      exec s q = (Returned response, st) /\ has_next response = true.

Lemma paginate_to_the_limit fuel max_pages :
  forall page cursor self query,
    (Z.to_nat (max_pages - page) < fuel)%nat ->
    exists r,
      paginate exec fuel max_pages page cursor self query = Some r
      /\ List.length (pages r) = Z.to_nat (max_pages - page)
      /\ ending r = Returned tt.
Proof.
  induction fuel as [|fuel IH]; intros page cursor self query Hfuel; [lia|].
  cbn [paginate].
  destruct (page <? max_pages) eqn:Hlt.
  - apply Z.ltb_lt in Hlt.
    match goal with
    | |- context [exec self ?q] =>
        destruct (always_more self q) as (response & [self' query'] & -> & Hn)
    end.
    unfold has_next in Hn. apply andb_prop in Hn as [Hc Hm].
    rewrite Hc, Hm. cbn [negb orb].
    destruct (IH (page + 1) (nextCursor (get_pagination response))
                self' query') as (r & -> & Hlen & Hend); [lia|].
    eexists. split; [reflexivity|]. cbn. rewrite Hlen. split; [lia|exact Hend].
  - apply Z.ltb_ge in Hlt. eexists. split; [reflexivity|]. cbn.
    split; [lia|reflexivity].
Qed.

End Exhaustive.

(** X17. When every response carries a cursor and claims more pages,
    [execute_paginated] yields exactly [max_pages] pages (none for a
    non-positive [max_pages]) and is then exhausted. *)
Theorem execute_paginated_runs_to_max_pages {C : Type}
  (exec : C -> query_pb2.Query -> outcome Response * (C * query_pb2.Query))
  (self : C) (query : query_pb2.Query) (max_pages : Z) :
  (forall s q, exists response st,
      exec s q = (Returned response, st) /\ has_next response = true) ->
  exists r,
    execute_paginated_ exec self query max_pages = Some r
    /\ List.length (pages r) = Z.to_nat max_pages
    /\ ending r = Returned tt.
Proof.
  intros H. unfold execute_paginated_.
  destruct (paginate_to_the_limit exec H (S (Z.to_nat max_pages)) max_pages 0
              None self query) as (r & Hr & Hlen & Hend).
  - rewrite Z.sub_0_r. lia.
  - rewrite Z.sub_0_r in Hlen. now exists r.
Qed.

Lemma execute_paginated_runs_to_max_pages_witness :
  exists r,
    execute_paginated_
      (fun (s : unit) q => (Returned Examples.more_with_cursor, (s, q)))
      tt Examples.users_query 5 = Some r
    /\ List.length (pages r) = Z.to_nat 5
    /\ ending r = Returned tt.
Proof.
  apply (execute_paginated_runs_to_max_pages
           (fun (s : unit) q => (Returned Examples.more_with_cursor, (s, q)))
           tt Examples.users_query 5).
  intros s q. exists Examples.more_with_cursor, (s, q). split; reflexivity.
Defined.

(** X18. After [explain_query] the query has [options.explain] true,
    and a second [explain_query] on it changes nothing more. *)
Theorem explain_query_settles (self : client) (query : query_pb2.Query) :
  read_explain (snd (snd (explain_query self query))) = true
  /\ snd (snd (explain_query self (snd (snd (explain_query self query)))))
     = snd (snd (explain_query self query)).
Proof.
  rewrite !explain_query_state. cbn [snd].
  destruct (read_explain query) eqn:E.
  - now rewrite E.
  - now rewrite read_explain_assign.
Qed.

Lemma paginate_pages fuel max_pages :
  forall page cursor rec query r,
    paginate recording fuel max_pages page cursor rec query = Some r ->
    firstn (List.length (pages r)) (script rec) = map Returned (pages r).
Proof.
  induction fuel as [|fuel IH]; intros page cursor rec query r H;
    [discriminate H|].
  cbn [paginate] in H.
  destruct (page <? max_pages); [|now injection H as <-].
  unfold recording in H at 1.
  destruct (script rec) as [|[response|e] rest] eqn:Es; cbn [requests] in H.
  - now injection H as <-.
  - destruct (negb (truthy_str (nextCursor (get_pagination response)))
              || negb (truthy_bool (hasMore (get_pagination response)))).
    + now injection H as <-.
    + match type of H with
      | context [paginate recording fuel max_pages ?pg ?cu ?rc ?q] =>
          destruct (paginate recording fuel max_pages pg cu rc q)
            as [r'|] eqn:Hr; [|discriminate H]
      end.
      injection H as <-. apply IH in Hr. cbn [script] in Hr.
      cbn [yield pages List.length firstn map]. now rewrite Hr.
  - now injection H as <-.
Qed.

(** Every outcome read from the replayed list is accounted for: a
    response is yielded, an error ends the run. *)
Lemma paginate_consumed fuel max_pages :
  forall page cursor rec query r,
    paginate recording fuel max_pages page cursor rec query = Some r ->
    match ending r with
    | Returned _ =>
        script rec = map Returned (pages r) ++ script (fst (final r))
    | Raised e =>
        script rec
        = map Returned (pages r) ++ Raised e :: script (fst (final r))
        \/ (script rec = map Returned (pages r)
            /\ script (fst (final r)) = []
            /\ e = RpcError "UNAVAILABLE" "")
    end.
Proof.
  induction fuel as [|fuel IH]; intros page cursor rec query r H;
    [discriminate H|].
  cbn [paginate] in H.
  destruct (page <? max_pages); [|now injection H as <-].
  unfold recording in H at 1.
  destruct (script rec) as [|[response|e] rest] eqn:Es; cbn [requests] in H.
  - injection H as <-. cbn. now right.
  - destruct (negb (truthy_str (nextCursor (get_pagination response)))
              || negb (truthy_bool (hasMore (get_pagination response)))).
    + now injection H as <-.
    + match type of H with
      | context [paginate recording fuel max_pages ?pg ?cu ?rc ?q] =>
          destruct (paginate recording fuel max_pages pg cu rc q)
            as [r'|] eqn:Hr; [|discriminate H]
      end.
      injection H as <-. apply IH in Hr. cbn [script] in Hr.
      cbn [yield pages ending final map app].
      destruct (ending r') as [u|e].
      * now rewrite Hr.
      * destruct Hr as [Hr | (Hr & Hs & He)]; [left|right]; now rewrite Hr.
  - injection H as <-. cbn. now left.
Qed.

(** X23. Against any replayed service, [execute_paginated] yields every
    response its requests get, unchanged and in the order received, with
    none skipped and none added: the replayed list is the yielded pages,
    then the error that ended the run if one did, then what was left
    unread (a run that ends by an error either read that error from the
    list, or found the list used up). *)
Theorem execute_paginated_yields_in_order
  (script_ : list (outcome Response)) (query : query_pb2.Query)
  (max_pages : Z) :
  exists r,
    execute_paginated_ recording (mk_recorder script_ []) query max_pages
      = Some r
    /\ firstn (List.length (pages r)) script_ = map Returned (pages r)
    /\ match ending r with
       | Returned _ =>
           script_ = map Returned (pages r) ++ script (fst (final r))
       | Raised e =>
           script_
           = map Returned (pages r) ++ Raised e :: script (fst (final r))
           \/ (script_ = map Returned (pages r)
               /\ script (fst (final r)) = []
               /\ e = RpcError "UNAVAILABLE" "")
       end
    /\ List.length (requests (fst (final r))) =
         (List.length (pages r)
          + match ending r with Raised _ => 1 | Returned _ => 0 end)%nat.
Proof.
  destruct (execute_paginated_sufficient recording (mk_recorder script_ [])
              query max_pages) as (r & Hr & _).
  exists r. split; [exact Hr|].
  unfold execute_paginated_ in Hr.
  split; [exact (paginate_pages _ _ _ _ _ _ _ Hr)|].
  split; [exact (paginate_consumed _ _ _ _ _ _ _ Hr)|].
  pose proof (paginate_requests _ _ _ _ _ _ _ Hr) as Hreq.
  cbn [requests app] in Hreq.
  rewrite Hreq, List.length_firstn, threaded_length.
  destruct (ending r); lia.
Qed.

End ClientExtras.

Module GrpcErrorExtras.

Import GrpcError.

(** X19. The line [_handle_grpc_error] prints ends with the details of
    the error for every status code except UNAUTHENTICATED,
    DEADLINE_EXCEEDED, RESOURCE_EXHAUSTED and UNAVAILABLE, for which the
    line is fixed and the details are lost. *)
Theorem handle_grpc_error_details (code : StatusCode) :
  if fixed_message code
  then forall d1 d2, _handle_grpc_error code d1 = _handle_grpc_error code d2
  else forall d,
      _handle_grpc_error code d = _handle_grpc_error code "" ++ d.
Proof.
  destruct code; cbn [fixed_message]; reflexivity.
Qed.

End GrpcErrorExtras.

Module RunAllExtras.

Import run_all.
Local Open Scope list_scope.

Lemma passed_all {A} (p : A -> bool) (l : list A) :
  (List.length (List.filter p l) <? List.length l)%nat = negb (forallb p l).
Proof.
  induction l as [|x l IH]; [reflexivity|].
  cbn [List.filter forallb List.length].
  pose proof (filter_length_le p l) as Hle.
  destruct (p x); cbn [andb List.length].
  - exact IH.
  - apply Nat.ltb_lt. lia.
Qed.

(** One step of the loop: the file lets an exception through, or it adds
    one result that says whether the file ran. *)
Lemma run_example_file files example_file :
  match escape files example_file with
  | Some e =>
      exists m, files example_file = Some m
                /\ run_example_module m = Propagates e
  | None =>
      match files example_file with
      | Some m =>
          exists error,
            run_example_module m = Done (runs files example_file, error)
      | None => runs files example_file = false
      end
  end.
Proof.
  unfold escape, runs, run_example_module.
  destruct (files example_file) as [[[] [|e|e] [[|e'|e']|]]|]; cbn;
    eauto.
Qed.

(** The loop as a whole: the first exception let through ends it;
    without one it adds one result per file, in order. *)
Lemma run_files_spec files :
  forall todo results,
    match first_escape files todo with
    | Some e => run_files files todo results = Propagates e
    | None =>
        exists added,
          run_files files todo results = Done (results ++ added)
          /\ map (fun r => fst (fst r)) added = todo
          /\ map (fun r => snd (fst r)) added = map (runs files) todo
    end.
Proof.
  induction todo as [|f todo IH]; intros results; cbn [first_escape run_files].
  - exists []. now rewrite app_nil_r.
  - pose proof (run_example_file files f) as Hf.
    destruct (escape files f) as [e|].
    + destruct Hf as (m & -> & ->). reflexivity.
    + destruct (files f) as [m|].
      * destruct Hf as (error & ->).
        specialize (IH (results ++ [(f, runs files f, error)])).
        destruct (first_escape files todo) as [e|]; [exact IH|].
        destruct IH as (added & -> & Hn & Hr).
        exists ((f, runs files f, error) :: added).
        rewrite <- app_assoc. cbn. now rewrite Hn, Hr.
      * specialize (IH (results ++ [(f, false, "File not found"%string)])).
        destruct (first_escape files todo) as [e|]; [exact IH|].
        destruct IH as (added & -> & Hn & Hr).
        exists ((f, false, "File not found"%string) :: added).
        rewrite <- app_assoc. cbn. now rewrite Hn, Hr, Hf.
Qed.

Lemma forallb_snd_fst (l : list (string * bool * string)) :
  forallb (fun r => snd (fst r)) l
  = forallb (fun b => b) (map (fun r => snd (fst r)) l).
Proof. induction l as [|x l IH]; [reflexivity|]. cbn. now rewrite IH. Qed.

Lemma forallb_id_map {A} (p : A -> bool) (l : list A) :
  forallb (fun b => b) (map p l) = forallb p l.
Proof. induction l as [|x l IH]; [reflexivity|]. cbn. now rewrite IH. Qed.

Lemma main_spec files :
  main files =
    match first_escape files example_files with
    | Some e => Propagates e
    | None => Done (if forallb (runs files) example_files then 0 else 1)
    end.
Proof.
  unfold main.
  pose proof (run_files_spec files example_files []) as H.
  destruct (first_escape files example_files) as [e|].
  - now rewrite H.
  - destruct H as (added & -> & _ & Hr).
    cbn [app]. rewrite passed_all, forallb_snd_fst, Hr, forallb_id_map.
    now destruct (forallb (runs files) example_files).
Qed.

(** X20. [run_all.main] ends in one of two ways. When an example file
    lets through an exception that is not an [Exception] ([SystemExit],
    [KeyboardInterrupt]) from its module body or its [main()], the first
    such exception, in list order, passes through [main], which sets no
    status of its own. Otherwise [main] records one result per listed
    file, in list order, and exits with status 0 or 1: status 0 exactly
    when every listed file exists, loads, defines [main] and its
    [main()] returns without raising. *)
Theorem main_exit_status (files : string -> option example_module) :
  match first_escape files example_files with
  | Some e =>
      main files = Propagates e
      /\ run_files files example_files [] = Propagates e
  | None =>
      (exists results,
          run_files files example_files [] = Done results
          /\ map (fun r => fst (fst r)) results = example_files
          /\ map (fun r => snd (fst r)) results
             = map (runs files) example_files)
      /\ (main files = Done 0 \/ main files = Done 1)
      /\ (main files = Done 0 <->
          forall example_file, In example_file example_files ->
                               runs files example_file = true)
  end.
Proof.
  rewrite main_spec.
  pose proof (run_files_spec files example_files []) as H.
  destruct (first_escape files example_files) as [e|]; [now split|].
  split; [exact H|].
  rewrite <- forallb_forall.
  destruct (forallb (runs files) example_files); split; auto;
    split; intros H0; (discriminate H0 || reflexivity).
Qed.

(** X21. [query_builder.py] defines no [main]. In every file system that
    loads it so, [run_all.main] never exits with status 0: it exits with
    status 1, unless an example file lets through an exception that is
    not an [Exception], which then passes through [main]. *)
Theorem main_always_fails (files : string -> option example_module) :
  (forall m, files "query_builder.py" = Some m -> main_attr m = None) ->
  main files =
    match first_escape files example_files with
    | Some e => Propagates e
    | None => Done 1
    end.
Proof.
  intros H. rewrite main_spec.
  destruct (first_escape files example_files); [reflexivity|].
  assert (Hq : runs files "query_builder.py" = false).
  { unfold runs. destruct (files "query_builder.py") as [m|]; [|reflexivity].
    rewrite (H m eq_refl). destruct (spec_found m), (exec_module m);
      reflexivity. }
  cbn. rewrite Hq. now rewrite !andb_false_r.
Qed.

Lemma main_always_fails_witness :
  main all_present =
    match first_escape all_present example_files with
    | Some e => Propagates e
    | None => Done 1
    end.
Proof.
  apply (main_always_fails all_present).
  intros m H. cbn in H. now injection H as <-.
Defined.

End RunAllExtras.

Module CoercionExtras.

Import struct_pb2 QueryBuilder CoercionFacts.

(** X11. For every datetime with fields in range, the text
    [_to_proto_value] gives is an ISO-8601 UTC timestamp exactly when the
    datetime is naive. *)
Theorem coerced_datetime_wellformed_iff_naive (d : Py.datetime) :
  Py.in_range d = true ->
  exists s,
    _to_proto_value (Py.PyDatetime d) = string_value s
    /\ Iso8601.is_utc_timestamp s = negb (Py.is_some (Py.utcoffset d)).
Proof.
  intros H. eexists. split; [reflexivity|].
  now apply coerced_datetime_is_utc.
Qed.

Lemma coerced_datetime_wellformed_iff_naive_witness :
  exists s,
    _to_proto_value (Py.PyDatetime Examples.naive_datetime) = string_value s
    /\ Iso8601.is_utc_timestamp s
       = negb (Py.is_some (Py.utcoffset Examples.naive_datetime)).
Proof.
  apply (coerced_datetime_wellformed_iff_naive Examples.naive_datetime).
  reflexivity.
Defined.

End CoercionExtras.

Module ClientExamplesExtras.

Import Py QueryClient ClientExamples.

(** X22. Each of the four examples of [grpc_client.py] ends with
    [RuntimeError("Not connected. Call connect() first.")], which [main]
    catches, and each leaves its channel closed. *)
Theorem examples_all_fail_not_connected :
  main =
    map (fun name =>
           (name,
            Some (Raised (RuntimeError "Not connected. Call connect() first."))))
      ["Simple Query"; "Paginated Query"; "Explain Query"; "Error Handling"]
  /\ Forall
       (fun c =>
          option_map _channel c
          = Some (Some (mk_Channel "localhost:50051" true)))
       clients_left.
Proof.
  split; [reflexivity|]. repeat constructor.
Qed.

End ClientExamplesExtras.
